(** * LeafScan-AI: the diagnosis pipeline and its tool adapter

    A shallow embedding of [fastapi_server.py] (the /analyze and /plant_info
    endpoints, the JSON repair helper) and of [mcp_server.py] (the
    [health_check], [analyze_plant] and [plant_info] tools), followed by the
    properties the specification states about them.

    Representation choices.
    - A Python [str] is a Rocq [string] holding its UTF-8 bytes.  The ASCII
      characters the code inspects (backtick, braces, slash, the letters of
      the plant names) are single bytes that occur in no multi-byte sequence,
      so searching and splitting on them is the same on bytes and on code
      points.
    - Exceptions are values: a computation returns [Ok a] or [Raise e].
    - Calls that leave the process (image decoding, model inference, the
      text generator, speech synthesis, the file system, HTTP) are
      capabilities of an environment record; each call is logged in a trace,
      so that "which calls happened, in which order" can be stated.
    - Model scores are rationals: the finite values of a float32 vector are
      rationals and are compared as such. *)

From Stdlib Require Import String Ascii List ZArith QArith Bool Arith Lia.
From Stdlib Require DecimalString.
Import ListNotations.
Close Scope Q_scope.
Set Warnings "-register-all".
Local Open Scope list_scope.
Local Open Scope string_scope.

(* ===================================================================== *)
(** * Python substrate *)
(* ===================================================================== *)

Module Py.

(** ** Characters and strings *)

Definition is_chr (n : nat) (c : ascii) : bool := Nat.eqb (nat_of_ascii c) n.

Definition is_backtick : ascii -> bool := is_chr 96.
Definition is_lbrace : ascii -> bool := is_chr 123.
Definition is_rbrace : ascii -> bool := is_chr 125.
Definition is_slash : ascii -> bool := is_chr 47.

(** The double-quote character, as a one-character string. *)
Definition dq : string := String (ascii_of_nat 34) EmptyString.

Fixpoint rev_string_onto (s acc : string) : string :=
  match s with
  | EmptyString => acc
  | String c r => rev_string_onto r (String c acc)
  end.

Definition rev_string (s : string) : string := rev_string_onto s EmptyString.

(** [str.lower()].  Only A-Z change; a byte of a multi-byte sequence is kept.
    Python lowers non-ASCII letters too, but the result contains an ASCII
    letter for two of them only: U+0130, which gives an i, and U+212A, which
    gives a k.  No plant name has an i or a k, so the test of a lowered
    text against the plant names is the same here and in Python, and a
    text that passed the test is ASCII. *)
Definition lower_char (c : ascii) : ascii :=
  let n := nat_of_ascii c in
  if (65 <=? n)%nat && (n <=? 90)%nat then ascii_of_nat (n + 32) else c.

Fixpoint lower (s : string) : string :=
  match s with
  | EmptyString => EmptyString
  | String c r => String (lower_char c) (lower r)
  end.

(** [s.strip(chars)] for a set of one-byte characters. *)
Fixpoint lstrip_chars (p : ascii -> bool) (s : string) : string :=
  match s with
  | EmptyString => EmptyString
  | String c r => if p c then lstrip_chars p r else s
  end.

Definition rstrip_chars (p : ascii -> bool) (s : string) : string :=
  rev_string (lstrip_chars p (rev_string s)).

Definition strip_chars (p : ascii -> bool) (s : string) : string :=
  rstrip_chars p (lstrip_chars p s).

(** [s.strip()]: Python's white space is U+0009-000D, U+001C-0020, U+0085,
    U+00A0, U+1680, U+2000-200A, U+2028, U+2029, U+202F, U+205F, U+3000.
    [ws2] and [ws3] recognise the two- and three-byte encodings among
    them. *)
Definition is_ascii_ws (c : ascii) : bool :=
  let n := nat_of_ascii c in
  ((9 <=? n)%nat && (n <=? 13)%nat) || ((28 <=? n)%nat && (n <=? 32)%nat).

Definition ws3 (a b c : nat) : bool :=
  match a, b with
  | 225, 154 => Nat.eqb c 128
  | 226, 128 => ((128 <=? c)%nat && (c <=? 138)%nat)
                || Nat.eqb c 168 || Nat.eqb c 169 || Nat.eqb c 175
  | 226, 129 => Nat.eqb c 159
  | 227, 128 => Nat.eqb c 128
  | _, _ => false
  end.

Definition ws2 (a b : nat) : bool :=
  Nat.eqb a 194 && (Nat.eqb b 133 || Nat.eqb b 160).

Fixpoint lstrip_ws (s : string) : string :=
  match s with
  | EmptyString => EmptyString
  | String a r =>
      if is_ascii_ws a then lstrip_ws r
      else match r with
           | String b r2 =>
               if ws2 (nat_of_ascii a) (nat_of_ascii b) then lstrip_ws r2
               else match r2 with
                    | String c r3 =>
                        if ws3 (nat_of_ascii a) (nat_of_ascii b) (nat_of_ascii c)
                        then lstrip_ws r3 else s
                    | EmptyString => s
                    end
           | EmptyString => s
           end
  end.

(** The same scan from the right end, on the reversed text. *)
Fixpoint lstrip_ws_rev (s : string) : string :=
  match s with
  | EmptyString => EmptyString
  | String a r =>
      if is_ascii_ws a then lstrip_ws_rev r
      else match r with
           | String b r2 =>
               if ws2 (nat_of_ascii b) (nat_of_ascii a) then lstrip_ws_rev r2
               else match r2 with
                    | String c r3 =>
                        if ws3 (nat_of_ascii c) (nat_of_ascii b) (nat_of_ascii a)
                        then lstrip_ws_rev r3 else s
                    | EmptyString => s
                    end
           | EmptyString => s
           end
  end.

Definition strip (s : string) : string :=
  rev_string (lstrip_ws_rev (rev_string (lstrip_ws s))).

(** [sep.join(parts)]. *)
Fixpoint join (sep : string) (parts : list string) : string :=
  match parts with
  | [] => EmptyString
  | [p] => p
  | p :: rest => p ++ sep ++ join sep rest
  end.

(** [x in xs] for strings. *)
Definition str_in (x : string) (xs : list string) : bool :=
  existsb (String.eqb x) xs.

(** [s.split('/')[-1]]: the text after the last slash. *)
Fixpoint last_segment_from (s cur : string) : string :=
  match s with
  | EmptyString => cur
  | String c r => if is_slash c then last_segment_from r r
                  else last_segment_from r cur
  end.

Definition last_segment (s : string) : string := last_segment_from s s.

(** ** Exceptions and results *)

Inductive exn_class : Type :=
| JSONDecodeError          (* json.JSONDecodeError *)
| ValueError
| IndexError
| AttributeError
| HTTPException (status : Z)
| ConnectionError          (* requests.exceptions.ConnectionError *)
| ConnectTimeout           (* subclass of ConnectionError and of Timeout *)
| ReadTimeout              (* subclass of Timeout *)
| OSError                  (* also PIL.UnidentifiedImageError *)
| OtherException.          (* any other subclass of Exception *)

Record exn : Type := Exn { exn_cls : exn_class; exn_msg : string }.

Definition isinstance_Timeout (e : exn) : bool :=
  match exn_cls e with
  | ConnectTimeout | ReadTimeout => true
  | _ => false
  end.

Definition isinstance_ConnectionError (e : exn) : bool :=
  match exn_cls e with
  | ConnectionError | ConnectTimeout => true
  | _ => false
  end.

Definition isinstance_JSONDecodeError (e : exn) : bool :=
  match exn_cls e with
  | JSONDecodeError => true
  | _ => false
  end.

Inductive result (A : Type) : Type :=
| Ok (a : A)
| Raise (e : exn).

Arguments Ok {A} a.
Arguments Raise {A} e.

(** ** JSON values

    What [json.loads] returns and what the endpoints and tools return.  An
    object is a Python dict: keys in insertion order, no duplicates.  A float
    is carried as the literal it was read from; no claim computes with it. *)

Inductive json : Type :=
| JNull
| JBool (b : bool)
| JInt (n : Z)
| JFloat (lit : string)
| JStr (s : string)
| JArr (xs : list json)
| JObj (kvs : list (string * json)).

Fixpoint assoc_get (kvs : list (string * json)) (k : string) : option json :=
  match kvs with
  | [] => None
  | (k', v) :: rest => if String.eqb k' k then Some v else assoc_get rest k
  end.

(** [d[k] = v] on a dict. *)
Fixpoint assoc_set (kvs : list (string * json)) (k : string) (v : json)
  : list (string * json) :=
  match kvs with
  | [] => [(k, v)]
  | (k', v') :: rest =>
      if String.eqb k' k then (k', v) :: rest
      else (k', v') :: assoc_set rest k v
  end.

(** [k in d]; a non-dict value has no keys here. *)
Definition has_key (d : json) (k : string) : bool :=
  match d with
  | JObj kvs => match assoc_get kvs k with Some _ => true | None => false end
  | _ => false
  end.

(** [d.get(k, default)].  Lists, strings, numbers and None have no [get]:
    the attribute lookup raises. *)
Definition dict_get (d : json) (k : string) (default : json) : result json :=
  match d with
  | JObj kvs => match assoc_get kvs k with
                | Some v => Ok v
                | None => Ok default
                end
  | _ => Raise (Exn AttributeError "object has no attribute 'get'")
  end.

(** The interpreter services the code relies on. *)
Record Runtime : Type := {
  (** [json.loads] on a [str]. *)
  json_loads : string -> result json;
  (** [str(v)] for a decoded value that is not a string, as an f-string
      renders it. *)
  repr_nonstr : json -> string
}.

(** [f"{v}"]. *)
Definition format_value (rt : Runtime) (v : json) : string :=
  match v with
  | JStr s => s
  | _ => repr_nonstr rt v
  end.

(** ** Effects: a trace of external calls, and exceptions *)

Inductive model_id : Type := POTATO_MODEL | PEPPER_MODEL | TOMATO_MODEL.

Inductive event : Type :=
| EvImageDecode                              (* PIL decodes the upload *)
| EvPredict (m : model_id)                   (* MODEL.predict *)
| EvExplain (plant disease : string)         (* text generator, explanation *)
| EvInfo (plant : string)                    (* text generator, plant info *)
| EvSpeech (text path : string)              (* gTTS(text).save(path) *)
| EvExists (path : string)                   (* Path.exists *)
| EvOpen (path : string)                     (* open(path, "rb") *)
| EvPost (url plant : string)                (* requests.post *)
| EvGet (url : string).                      (* requests.get *)

Definition M (A : Type) : Type := list event -> result A * list event.

Definition ret {A} (a : A) : M A := fun t => (Ok a, t).

Definition raise {A} (e : exn) : M A := fun t => (Raise e, t).

Definition bind {A B} (m : M A) (f : A -> M B) : M B :=
  fun t => match m t with
           | (Ok a, t') => f a t'
           | (Raise e, t') => (Raise e, t')
           end.

(** A pure step that may raise. *)
Definition lift {A} (r : result A) : M A := fun t => (r, t).

(** An external call: logged, then its outcome. *)
Definition call {A} (ev : event) (r : result A) : M A :=
  fun t => (r, (t ++ [ev])%list).

(** [try: m  except Exception as e: h e]; the handler re-raises what its
    [except] clauses do not match. *)
Definition try_except {A} (m : M A) (h : exn -> M A) : M A :=
  fun t => match m t with
           | (Ok a, t') => (Ok a, t')
           | (Raise e, t') => h e t'
           end.

(** Running a request from an empty trace. *)
Definition run {A} (m : M A) : result A * list event := m [].

End Py.

Export Py.

Notation "x <- m ;; k" := (bind m (fun x => k))
  (at level 61, m at next level, right associativity).
Notation "' pat <- m ;; k" := (bind m (fun x => match x with pat => k end))
  (at level 61, pat pattern, m at next level, right associativity).

(* ===================================================================== *)
(** * numpy: [argmax] and [max] of a score vector *)
(* ===================================================================== *)

Module np.

Definition Qlt_bool (a b : Q) : bool := negb (Qle_bool b a).

(** Scan keeping the best index seen so far; a later score replaces it only
    when it is strictly greater, so the first occurrence of the maximum
    wins. *)
Fixpoint argmax_from (l : list Q) (i best_i : nat) (best : Q) : nat :=
  match l with
  | [] => best_i
  | x :: r => if Qlt_bool best x then argmax_from r (S i) i x
              else argmax_from r (S i) best_i best
  end.

(** [int(np.argmax(v))]; an empty vector is a [ValueError]. *)
Definition argmax (v : list Q) : result nat :=
  match v with
  | [] => Raise (Exn ValueError "attempt to get argmax of an empty sequence")
  | x :: r => Ok (argmax_from r 1 0 x)
  end.

Fixpoint max_from (l : list Q) (best : Q) : Q :=
  match l with
  | [] => best
  | x :: r => if Qlt_bool best x then max_from r x else max_from r best
  end.

(** [float(np.max(v))]. *)
Definition max (v : list Q) : result Q :=
  match v with
  | [] => Raise (Exn ValueError "zero-size array to reduction operation maximum")
  | x :: r => Ok (max_from r x)
  end.

End np.

(** [xs[i]] on a list, with Python's [IndexError]. *)
Definition getitem {A} (xs : list A) (i : nat) : result A :=
  match nth_error xs i with
  | Some x => Ok x
  | None => Raise (Exn IndexError "list index out of range")
  end.

(* ===================================================================== *)
(** * fastapi_server.py *)
(* ===================================================================== *)

Module fastapi_server.

Definition POTATO_CLASSES : list string :=
  ["Early Blight"; "Late Blight"; "Healthy"].

Definition PEPPER_CLASSES : list string :=
  ["Bacterial Spot"; "Healthy"].

Definition TOMATO_CLASSES : list string :=
  ["Target Spot"; "Mosaic Virus"; "Yellow Leaf Curl Virus"; "Bacterial Spot";
   "Early Blight"; "Healthy"; "Late Blight"; "Leaf Mold";
   "Septoria Leaf Spot"; "Two Spotted Spider Mite"].

(** The dict [{"error": err, "raw": raw}]. *)
Definition fallback_envelope (err raw : string) : json :=
  JObj [("error", JStr err); ("raw", JStr raw)].

(** ** clean_llm_json *)

(** Where the first run of three backticks is: the text before it and the
    text after it. *)
Fixpoint find_fence (s : string) : option (string * string) :=
  match s with
  | EmptyString => None
  | String a t =>
      let skip := match find_fence t with
                  | Some (pre, post) => Some (String a pre, post)
                  | None => None
                  end in
      match t with
      | String b (String c r) =>
          if is_backtick a && is_backtick b && is_backtick c
          then Some (EmptyString, r) else skip
      | _ => skip
      end
  end.

Definition FENCE : string := "```".

(** [re.sub(r"```.*?```", lambda m: m.group(0).strip("`"), s, flags=re.DOTALL)].
    The leftmost match opens at the first fence and, [.*?] being lazy,
    closes at the next fence after it; the scan resumes after the match.
    When an opening fence has no closing one, no later position matches
    either.  Each round consumes at least six characters, so [fuel] equal to
    the length of the text is never exhausted. *)
Fixpoint sub_fenced (fuel : nat) (s : string) : string :=
  match fuel with
  | O => s
  | S fuel' =>
      match find_fence s with
      | None => s
      | Some (pre, after_open) =>
          match find_fence after_open with
          | None => s
          | Some (body, rest) =>
              pre ++ strip_chars is_backtick (FENCE ++ body ++ FENCE)
                  ++ sub_fenced fuel' rest
          end
      end
  end.

(** [str.replace]: every run of three backticks is deleted, left to right. *)
Fixpoint remove_fences (s : string) : string :=
  match s with
  | EmptyString => EmptyString
  | String a t =>
      match t with
      | String b (String c r) =>
          if is_backtick a && is_backtick b && is_backtick c
          then remove_fences r else String a (remove_fences t)
      | _ => String a (remove_fences t)
      end
  end.

(** [re.search(r"\{.*\}", s, flags=re.DOTALL)]: from the first opening
    brace to the last closing brace after it. *)
Fixpoint from_first_lbrace (s : string) : option string :=
  match s with
  | EmptyString => None
  | String c r => if is_lbrace c then Some s else from_first_lbrace r
  end.

Fixpoint upto_last_rbrace (s : string) : option string :=
  match s with
  | EmptyString => None
  | String c r =>
      match upto_last_rbrace r with
      | Some p => Some (String c p)
      | None => if is_rbrace c then Some (String c EmptyString) else None
      end
  end.

Definition search_braces (s : string) : option string :=
  match from_first_lbrace s with
  | Some t => upto_last_rbrace t
  | None => None
  end.

(** The text handed to [json.loads]: lines 119 to 127 of the source. *)
Definition extract_json (raw_text : string) : string :=
  let cleaned := sub_fenced (String.length raw_text) raw_text in
  let cleaned := strip (remove_fences cleaned) in
  match search_braces cleaned with
  | Some m => m
  | None => cleaned
  end.

(** Only [json.JSONDecodeError] is caught; anything else propagates. *)
Definition clean_llm_json (rt : Runtime) (raw_text : string) : result json :=
  let cleaned := extract_json raw_text in
  match json_loads rt cleaned with
  | Ok doc => Ok doc
  | Raise e =>
      if isinstance_JSONDecodeError e
      then Ok (fallback_envelope "Invalid JSON" raw_text)
      else Raise e
  end.

(** The five keys the explanation prompt asks for. *)
Definition REQUIRED_KEYS : list string :=
  ["disease_overview"; "symptoms"; "cause"; "recommended_treatment";
   "prevention_tips"].

Definition has_required_keys (doc : json) : bool :=
  forallb (has_key doc) REQUIRED_KEYS.

(** ** The environment of the server *)

Record Env : Type := {
  runtime : Runtime;
  (** What PIL and numpy make of an upload. *)
  ndarray : Type;
  (** [np.array(Image.open(BytesIO(data)))], then [np.expand_dims(img, 0)];
      fails on bytes that are no image. *)
  read_file_as_image : string -> result ndarray;
  (** [MODEL.predict(img)[0]]: one score per class. *)
  predict : model_id -> ndarray -> result (list Q);
  (** The chat completion on the explanation prompt for (plant, disease). *)
  generate_llm_explanation : string -> string -> result string;
  (** The chat completion on the plant-information prompt. *)
  generate_llm_info : string -> result string;
  (** [str(uuid.uuid4())] as drawn for this request. *)
  uuid4 : string;
  (** Creating the audio directory when missing, then [gTTS(text).save(path)]. *)
  gtts_save : string -> string -> result unit
}.

Record DiagnosisResponse : Type := {
  resp_plant : string;
  resp_predicted_disease : string;
  resp_confidence : Q;
  resp_explanation : json;
  resp_audio_url : string
}.

Definition INVALID_PLANT : exn :=
  Exn (HTTPException 400) "Invalid plant type. Use potato/pepper/tomato.".

Definition NO_TREATMENT : string :=
  "No treatment available with me at this moment. Please contact a plant pathologist.".

Section Endpoints.

Variable E : Env.

(** One branch of the dispatch: predict, pick the class. *)
Definition classify_with (m : model_id) (classes : list string)
           (img : ndarray E) : M (string * list Q) :=
  preds <- call (EvPredict m) (predict E m img) ;;
  i <- lift (np.argmax preds) ;;
  disease <- lift (getitem classes i) ;;
  ret (disease, preds).

(** Lines 264 to 279: the dispatch on the plant type and the confidence. *)
Definition vision_agent (plant : string) (img : ndarray E) : M (string * Q) :=
  '(disease, preds) <-
     (if lower plant =? "potato" then
        classify_with POTATO_MODEL POTATO_CLASSES img
      else if lower plant =? "pepper" then
        classify_with PEPPER_MODEL PEPPER_CLASSES img
      else if lower plant =? "tomato" then
        classify_with TOMATO_MODEL TOMATO_CLASSES img
      else raise INVALID_PLANT) ;;
  confidence <- lift (np.max preds) ;;
  ret (disease, confidence).

(** Lines 282 to 287: the bare [except] absorbs every failure of
    [json.loads]. *)
Definition parse_or_fallback (llm_json_str : string) : json :=
  match json_loads (runtime E) llm_json_str with
  | Ok doc => doc
  | Raise _ => fallback_envelope "LLM produced invalid JSON" llm_json_str
  end.

Definition language_agent (plant disease : string) : M json :=
  llm_json_str <- call (EvExplain plant disease)
                       (generate_llm_explanation E plant disease) ;;
  ret (parse_or_fallback llm_json_str).

(** Lines 290 to 298: the spoken summary. *)
Definition speech_text (plant disease : string) (explanation : json)
  : result string :=
  if lower disease =? "healthy" then
    Ok ("The " ++ plant ++ " plant, is detected healthy.")
  else
    match dict_get explanation "recommended_treatment" (JStr NO_TREATMENT) with
    | Ok treatment =>
        Ok ("For " ++ plant ++ " plant, the detected disease is " ++ disease
            ++ ". " ++ "The recommended treatment is: "
            ++ format_value (runtime E) treatment ++ ".")
    | Raise e => Raise e
    end.

Definition generate_audio (text : string) : M string :=
  let audio_id := uuid4 E ++ ".mp3" in
  let audio_dir := "audio" in
  let file_path := audio_dir ++ "/" ++ audio_id in
  _ <- call (EvSpeech text file_path) (gtts_save E text file_path) ;;
  ret file_path.

(** POST /analyze. *)
Definition analyze (plant : string) (file : string) : M DiagnosisResponse :=
  (* Vision agent *)
  img <- call EvImageDecode (read_file_as_image E file) ;;
  '(disease, confidence) <- vision_agent plant img ;;
  (* Language agent *)
  explanation <- language_agent plant disease ;;
  (* Audio agent *)
  speech <- lift (speech_text plant disease explanation) ;;
  audio_path <- generate_audio speech ;;
  let audio_url := "/audio/" ++ last_segment audio_path in
  (* Final response *)
  ret {| resp_plant := plant;
         resp_predicted_disease := disease;
         resp_confidence := confidence;
         resp_explanation := explanation;
         resp_audio_url := audio_url |}.

(** GET /plant_info/{plant}. *)
Definition plant_info (plant : string) : M json :=
  if str_in (lower plant) ["potato"; "tomato"; "pepper"] then
    llm_json_plant_info <- call (EvInfo plant) (generate_llm_info E plant) ;;
    ret (JObj [("info", parse_or_fallback llm_json_plant_info)])
  else raise INVALID_PLANT.

End Endpoints.

End fastapi_server.

(* ===================================================================== *)
(** * mcp_server.py *)
(* ===================================================================== *)

Module mcp_server.

Definition FASTAPI_URL : string := "http://localhost:8000".

(** What the code reads of a [requests.Response]. *)
Record Response : Type := {
  status_code : Z;
  content_type : option string;     (* resp.headers.get('content-type') *)
  text : string
}.

Record Env : Type := {
  runtime : Runtime;
  (** [Path(p).exists()]: the underlying [stat] may fail with an [OSError]
      (a name that is too long, a directory that cannot be searched). *)
  path_exists : string -> result bool;
  (** [Path(p).name] and [Path(p).suffix]. *)
  path_name : string -> string;
  path_suffix : string -> string;
  (** [open(p, "rb")]: the handle, here the bytes it yields. *)
  open_rb : string -> result string;
  (** [requests.post(url, params={"plant": plant}, files={"file": (name,
      f, mime)}, timeout=t)]. *)
  requests_post :
    string -> string -> string * string * string -> Z -> result Response;
  (** [requests.get(url, timeout=t)]. *)
  requests_get : string -> Z -> result Response
}.

Definition valid_plants : list string := ["potato"; "tomato"; "pepper"].

(** An error dict of the tools. *)
Definition error_envelope (kind : string) (more : list (string * json)) : json :=
  JObj (("error", JStr kind) :: more).

Section Tools.

Variable E : Env.

(** [resp.json()]. *)
Definition resp_json (resp : Response) : result json :=
  json_loads (runtime E) (text resp).

Definition content_type_is (resp : Response) (ct : string) : bool :=
  match content_type resp with
  | Some c => String.eqb c ct
  | None => false
  end.

Definition health_check : M json :=
  try_except
    (resp <- call (EvGet (FASTAPI_URL ++ "/health"))
                  (requests_get E (FASTAPI_URL ++ "/health") 5) ;;
     if (status_code resp =? 200)%Z then
       response <- (if content_type_is resp "application/json"
                    then lift (resp_json resp)
                    else ret (JStr (text resp))) ;;
       ret (JObj [("status", JStr "healthy");
                  ("backend_url", JStr FASTAPI_URL);
                  ("response", response)])
     else
       ret (JObj [("status", JStr "unhealthy");
                  ("status_code", JInt (status_code resp));
                  ("details", JStr (text resp))]))
    (fun e =>
       if isinstance_ConnectionError e then
         ret (JObj [("status", JStr "unreachable");
                    ("details",
                     JStr ("Cannot connect to FastAPI server at " ++ FASTAPI_URL))])
       else
         ret (JObj [("status", JStr "error"); ("details", JStr (exn_msg e))])).

Definition mime_type_of (image_path : string) : string :=
  let suffix := lower (path_suffix E image_path) in
  if str_in suffix [".png"] then "image/png"
  else if str_in suffix [".jpg"; ".jpeg"] then "image/jpeg"
  else "image/jpeg".

Definition analyze_plant (plant image_path : string) : M json :=
  (* Validate plant type *)
  if negb (str_in (lower plant) valid_plants) then
    ret (error_envelope "Invalid plant type"
           [("details", JStr ("Plant must be one of: " ++ join ", " valid_plants))])
  else
    (* Validate file exists *)
    found <- call (EvExists image_path) (path_exists E image_path) ;;
    if negb found then
      ret (error_envelope "File not found"
             [("details", JStr ("Image file does not exist: " ++ image_path))])
    else
      let mime_type := mime_type_of image_path in
      try_except
        (f <- call (EvOpen image_path) (open_rb E image_path) ;;
         resp <- call (EvPost (FASTAPI_URL ++ "/analyze") (lower plant))
                      (requests_post E (FASTAPI_URL ++ "/analyze") (lower plant)
                         (path_name E image_path, f, mime_type) 30) ;;
         if negb (status_code resp =? 200)%Z then
           ret (error_envelope "FastAPI error"
                  [("status_code", JInt (status_code resp));
                   ("details", JStr (text resp))])
         else lift (resp_json resp))
        (fun e =>
           if isinstance_Timeout e then
             ret (error_envelope "Request timed out"
                    [("details",
                      JStr "FastAPI server did not respond within 30 seconds")])
           else if isinstance_ConnectionError e then
             ret (error_envelope "Connection failed"
                    [("details",
                      JStr ("Could not connect to FastAPI server at " ++ FASTAPI_URL))])
           else
             ret (error_envelope "Unexpected error"
                    [("details", JStr (exn_msg e))])).

Definition plant_info (plant : string) : M json :=
  if negb (str_in (lower plant) valid_plants) then
    ret (error_envelope "Invalid plant type"
           [("supported_plants", JArr (map JStr valid_plants))])
  else
    try_except
      (resp <- call (EvGet (FASTAPI_URL ++ "/plant_info/" ++ lower plant))
                    (requests_get E (FASTAPI_URL ++ "/plant_info/" ++ lower plant) 10) ;;
       if (status_code resp =? 404)%Z then
         ret (error_envelope "Endpoint not implemented"
                [("details",
                  JStr "FastAPI server does not have /plant_info endpoint")])
       else if negb (status_code resp =? 200)%Z then
         ret (error_envelope "API error" [("details", JStr (text resp))])
       else lift (resp_json resp))
      (fun e =>
         if isinstance_ConnectionError e then
           ret (error_envelope "Connection failed" [])
         else ret (error_envelope (exn_msg e) [])).

End Tools.

End mcp_server.

(* ===================================================================== *)
(** * A reference JSON decoder

    [json.loads] is a parameter of every theorem below.  To run the model on
    concrete texts this section gives a decoder for the documents of RFC 8259
    as CPython reads them: white space, objects with last-value-wins keys,
    arrays, strings with the one-letter escapes, integers, floats kept as
    literals, [true], [false], [null], and the [NaN] and [Infinity]
    extensions.  As in CPython 3.11 (and the security releases of 3.7 to
    3.10) an integer literal of more than 4300 digits is refused with a
    [ValueError], the limit of [int] on decimal strings, which is not a
    [JSONDecodeError].  Outside this fragment, and refused: a backslash-u
    escape.  The message of an exception is not modelled beyond a short
    text. *)
(* ===================================================================== *)

Module json_ref.

Definition MAX_STR_DIGITS : nat := 4300.

Definition syntax_error : exn := Exn JSONDecodeError "Expecting value".

Definition digits_error : exn :=
  Exn ValueError "Exceeds the limit (4300 digits) for integer string conversion".

Definition is_json_ws (c : ascii) : bool :=
  is_chr 32 c || is_chr 9 c || is_chr 10 c || is_chr 13 c.

Fixpoint skip_ws (s : string) : string :=
  match s with
  | EmptyString => EmptyString
  | String c r => if is_json_ws c then skip_ws r else s
  end.

Definition is_digit (c : ascii) : bool :=
  let n := nat_of_ascii c in (48 <=? n)%nat && (n <=? 57)%nat.

Fixpoint span_digits (s : string) : string * string :=
  match s with
  | EmptyString => (EmptyString, EmptyString)
  | String c r => if is_digit c
                  then let (d, t) := span_digits r in (String c d, t)
                  else (EmptyString, s)
  end.

Fixpoint Z_of_digits (d : string) (acc : Z) : Z :=
  match d with
  | EmptyString => acc
  | String c r => Z_of_digits r (10 * acc + Z.of_nat (nat_of_ascii c - 48))%Z
  end.

Fixpoint strip_prefix (p s : string) : option string :=
  match p, s with
  | EmptyString, _ => Some s
  | String a p', String b s' => if Ascii.eqb a b then strip_prefix p' s' else None
  | _, EmptyString => None
  end.

(** A number: an optional minus sign, then 0 or a digit string without
    leading zero, then optionally a dot and digits, then optionally e or E,
    a sign and digits.  [None] when the text starts with no number. *)
Definition scan_number (s : string) : option (result json * string) :=
  let (sign, s1) := match s with
                    | String c r => if is_chr 45 c then ("-", r) else (EmptyString, s)
                    | EmptyString => (EmptyString, s)
                    end in
  let int_part :=
    match s1 with
    | String c r =>
        if is_chr 48 c then Some ("0", r)
        else if is_digit c then Some (span_digits s1)
        else None
    | EmptyString => None
    end in
  match int_part with
  | None => None
  | Some (ds, s2) =>
      let (frac, s3) :=
        match s2 with
        | String c r =>
            if is_chr 46 c then
              let (fd, t) := span_digits r in
              match fd with
              | EmptyString => (EmptyString, s2)
              | _ => ("." ++ fd, t)
              end
            else (EmptyString, s2)
        | EmptyString => (EmptyString, s2)
        end in
      let (expo, s4) :=
        match s3 with
        | String c r =>
            if is_chr 101 c || is_chr 69 c then
              let (sg, r') := match r with
                              | String c' r'' =>
                                  if is_chr 43 c' || is_chr 45 c'
                                  then (String c' EmptyString, r'')
                                  else (EmptyString, r)
                              | EmptyString => (EmptyString, r)
                              end in
              let (ed, t) := span_digits r' in
              match ed with
              | EmptyString => (EmptyString, s3)
              | _ => (String c EmptyString ++ sg ++ ed, t)
              end
            else (EmptyString, s3)
        | EmptyString => (EmptyString, s3)
        end in
      match frac, expo with
      | EmptyString, EmptyString =>
          if (MAX_STR_DIGITS <? String.length ds)%nat
          then Some (Raise digits_error, s4)
          else
            let n := Z_of_digits ds 0 in
            Some (Ok (JInt (if String.eqb sign "-" then (- n)%Z else n)), s4)
      | _, _ => Some (Ok (JFloat (sign ++ ds ++ frac ++ expo)), s4)
      end
  end.

Definition unescape (c : ascii) : option ascii :=
  let n := nat_of_ascii c in
  if Nat.eqb n 34 || Nat.eqb n 92 || Nat.eqb n 47 then Some c
  else if Nat.eqb n 98 then Some (ascii_of_nat 8)
  else if Nat.eqb n 102 then Some (ascii_of_nat 12)
  else if Nat.eqb n 110 then Some (ascii_of_nat 10)
  else if Nat.eqb n 114 then Some (ascii_of_nat 13)
  else if Nat.eqb n 116 then Some (ascii_of_nat 9)
  else None.

(** The body of a string, after its opening quote. *)
Fixpoint scan_string (s : string) : option (string * string) :=
  match s with
  | EmptyString => None
  | String c r =>
      if is_chr 34 c then Some (EmptyString, r)
      else if is_chr 92 c then
        match r with
        | String e r2 =>
            match unescape e, scan_string r2 with
            | Some ch, Some (body, t) => Some (String ch body, t)
            | _, _ => None
            end
        | EmptyString => None
        end
      else if (nat_of_ascii c <? 32)%nat then None
      else match scan_string r with
           | Some (body, t) => Some (String c body, t)
           | None => None
           end
  end.

(** A value that is no string, object or array. *)
Definition scan_literal (s : string) : result (json * string) :=
  match strip_prefix "null" s with
  | Some t => Ok (JNull, t)
  | None =>
  match strip_prefix "true" s with
  | Some t => Ok (JBool true, t)
  | None =>
  match strip_prefix "false" s with
  | Some t => Ok (JBool false, t)
  | None =>
  match scan_number s with
  | Some (Ok v, t) => Ok (v, t)
  | Some (Raise e, _) => Raise e
  | None =>
  match strip_prefix "NaN" s with
  | Some t => Ok (JFloat "NaN", t)
  | None =>
  match strip_prefix "Infinity" s with
  | Some t => Ok (JFloat "Infinity", t)
  | None =>
  match strip_prefix "-Infinity" s with
  | Some t => Ok (JFloat "-Infinity", t)
  | None => Raise syntax_error
  end end end end end end end.

Fixpoint scan_value (fuel : nat) (s : string) : result (json * string) :=
  match fuel with
  | O => Raise syntax_error
  | S fuel' =>
      match s with
      | EmptyString => Raise syntax_error
      | String c r =>
          if is_chr 34 c then
            match scan_string r with
            | Some (body, t) => Ok (JStr body, t)
            | None => Raise syntax_error
            end
          else if is_lbrace c then
            match skip_ws r with
            | String c' r' =>
                if is_rbrace c' then Ok (JObj [], r')
                else scan_members fuel' (skip_ws r) []
            | EmptyString => Raise syntax_error
            end
          else if is_chr 91 c then
            match skip_ws r with
            | String c' r' =>
                if is_chr 93 c' then Ok (JArr [], r')
                else scan_elements fuel' (skip_ws r) []
            | EmptyString => Raise syntax_error
            end
          else scan_literal s
      end
  end
with scan_members (fuel : nat) (s : string) (acc : list (string * json))
  : result (json * string) :=
  match fuel with
  | O => Raise syntax_error
  | S fuel' =>
      match s with
      | String c r =>
          if is_chr 34 c then
            match scan_string r with
            | Some (k, t) =>
                match skip_ws t with
                | String c2 t2 =>
                    if is_chr 58 c2 then
                      match scan_value fuel' (skip_ws t2) with
                      | Ok (v, t3) =>
                          let acc' := assoc_set acc k v in
                          match skip_ws t3 with
                          | String c3 t4 =>
                              if is_rbrace c3 then Ok (JObj acc', t4)
                              else if is_chr 44 c3
                                   then scan_members fuel' (skip_ws t4) acc'
                                   else Raise syntax_error
                          | EmptyString => Raise syntax_error
                          end
                      | Raise e => Raise e
                      end
                    else Raise syntax_error
                | EmptyString => Raise syntax_error
                end
            | None => Raise syntax_error
            end
          else Raise syntax_error
      | EmptyString => Raise syntax_error
      end
  end
with scan_elements (fuel : nat) (s : string) (acc : list json)
  : result (json * string) :=
  match fuel with
  | O => Raise syntax_error
  | S fuel' =>
      match scan_value fuel' s with
      | Ok (v, t) =>
          match skip_ws t with
          | String c t2 =>
              if is_chr 93 c then Ok (JArr (acc ++ [v])%list, t2)
              else if is_chr 44 c
                   then scan_elements fuel' (skip_ws t2) (acc ++ [v])%list
                   else Raise syntax_error
          | EmptyString => Raise syntax_error
          end
      | Raise e => Raise e
      end
  end.

Definition loads (s : string) : result json :=
  match scan_value (S (String.length s)) (skip_ws s) with
  | Ok (v, t) =>
      match skip_ws t with
      | EmptyString => Ok v
      | _ => Raise (Exn JSONDecodeError "Extra data")
      end
  | Raise e => Raise e
  end.

(** [str(v)] for [None], the booleans and the integers; floats and
    containers are left to a placeholder, which no example below renders. *)
Definition repr_scalar (v : json) : string :=
  match v with
  | JNull => "None"
  | JBool true => "True"
  | JBool false => "False"
  | JInt n => DecimalString.NilZero.string_of_int (Z.to_int n)
  | _ => "<repr>"
  end.

Definition runtime : Runtime :=
  {| json_loads := loads; repr_nonstr := repr_scalar |}.

End json_ref.

(* ===================================================================== *)
(** * Example environments

    Concrete worlds on which the model is run: a backend whose potato model
    prefers "Late Blight", and text generators that answer with a given
    text. *)
(* ===================================================================== *)

Module examples.

Import fastapi_server.

(** An integer literal of 4301 digits. *)
Definition LONG_INTEGER : string :=
  string_of_list_ascii (repeat "1"%char 4301).

(** The text [{"recommended_treatment": "Remove infected leaves"}]. *)
Definition TREATMENT_ONLY : string :=
  "{" ++ dq ++ "recommended_treatment" ++ dq ++ ": "
      ++ dq ++ "Remove infected leaves" ++ dq ++ "}".

(** A server whose image decoder accepts every upload, whose models score
    the classes with fixed vectors, and whose text generator answers
    [llm_text]. *)
Definition server (llm_text : string) : fastapi_server.Env :=
  {| fastapi_server.runtime := json_ref.runtime;
     ndarray := unit;
     read_file_as_image := fun _ => Ok tt;
     predict := fun m _ =>
       match m with
       | POTATO_MODEL => Ok [1 # 10; 7 # 10; 2 # 10]%Q
       | PEPPER_MODEL => Ok [1 # 2; 1 # 2]%Q
       | TOMATO_MODEL => Ok [0; 0; 0; 0; 0; 1; 0; 0; 0; 0]%Q
       end;
     generate_llm_explanation := fun _ _ => Ok llm_text;
     generate_llm_info := fun _ => Ok llm_text;
     uuid4 := "1b4e28ba-2fa1-41d2-883f-0016d3cca427";
     gtts_save := fun _ _ => Ok tt |}.

(** The same server when the upload is not an image. *)
Definition server_bad_image : fastapi_server.Env :=
  {| fastapi_server.runtime := json_ref.runtime;
     ndarray := unit;
     read_file_as_image := fun _ =>
       Raise (Exn OSError "cannot identify image file");
     predict := fun _ _ => Ok [1]%Q;
     generate_llm_explanation := fun _ _ => Ok "{}";
     generate_llm_info := fun _ => Ok "{}";
     uuid4 := "1b4e28ba-2fa1-41d2-883f-0016d3cca427";
     gtts_save := fun _ _ => Ok tt |}.

(** A tool host whose image file exists and whose backend answers every
    request with [reply]. *)
Definition host (reply : result mcp_server.Response) : mcp_server.Env :=
  {| mcp_server.runtime := json_ref.runtime;
     mcp_server.path_exists := fun _ => Ok true;
     mcp_server.path_name := last_segment;
     mcp_server.path_suffix := fun _ => ".jpg";
     mcp_server.open_rb := fun _ => Ok "JFIF";
     mcp_server.requests_post := fun _ _ _ _ => reply;
     mcp_server.requests_get := fun _ _ => reply |}.

Definition reply (code : Z) (body : string) : result mcp_server.Response :=
  Ok {| mcp_server.status_code := code;
        mcp_server.content_type := Some "application/json";
        mcp_server.text := body |}.

(** What /analyze answers on the first server for plant [Potato]. *)
Definition potato_response : DiagnosisResponse :=
  {| resp_plant := "Potato";
     resp_predicted_disease := "Late Blight";
     resp_confidence := (7 # 10)%Q;
     resp_explanation :=
       JObj [("recommended_treatment", JStr "Remove infected leaves")];
     resp_audio_url := "/audio/1b4e28ba-2fa1-41d2-883f-0016d3cca427.mp3" |}.

Definition potato_trace : list event :=
  [EvImageDecode; EvPredict POTATO_MODEL; EvExplain "Potato" "Late Blight";
   EvSpeech ("For Potato plant, the detected disease is Late Blight. "
             ++ "The recommended treatment is: Remove infected leaves.")
            "audio/1b4e28ba-2fa1-41d2-883f-0016d3cca427.mp3"].

End examples.

(* ===================================================================== *)
(** * Vocabulary of the statements *)
(* ===================================================================== *)

Module spec.

Import fastapi_server.

(** The closed enumeration, up to letter case. *)
Definition valid_plant (plant : string) : bool :=
  str_in (lower plant) ["potato"; "tomato"; "pepper"].

(** The model and the ordered class list of a plant type. *)
Definition vocabulary (plant : string) : option (model_id * list string) :=
  if lower plant =? "potato" then Some (POTATO_MODEL, POTATO_CLASSES)
  else if lower plant =? "pepper" then Some (PEPPER_MODEL, PEPPER_CLASSES)
  else if lower plant =? "tomato" then Some (TOMATO_MODEL, TOMATO_CLASSES)
  else None.

(** [i] is the first index at which the score vector [v] takes its
    greatest value [c]. *)
Definition first_argmax (v : list Q) (i : nat) (c : Q) : Prop :=
  nth_error v i = Some c /\
  (forall j x, nth_error v j = Some x -> (x <= c)%Q) /\
  (forall j x, j < i -> nth_error v j = Some x -> (x < c)%Q).

(** Where /analyze stores the audio of a request. *)
Definition audio_path (E : Env) : string := "audio/" ++ uuid4 E ++ ".mp3".

(** The treatment sentence of the spoken summary. *)
Definition treatment_of (kvs : list (string * json)) : json :=
  match assoc_get kvs "recommended_treatment" with
  | Some v => v
  | None => JStr NO_TREATMENT
  end.

(** The error kinds the specification lists for [analyze_plant], and the
    ones the tool can return. *)
Definition LISTED_KINDS : list string :=
  ["Invalid plant type"; "File not found"; "FastAPI error";
   "Request timed out"; "Connection failed"].

Definition TOOL_KINDS : list string :=
  (LISTED_KINDS ++ ["Unexpected error"])%list.

Section AnalyzePlantOutcome.

Import mcp_server.

Variable E : mcp_server.Env.
Variables plant image_path : string.

Definition post_analyze (f : string) : result Response :=
  requests_post E (FASTAPI_URL ++ "/analyze") (lower plant)
    (path_name E image_path, f, mime_type_of E image_path) 30.

(** The backend answered 200 with a body that decodes to [payload]. *)
Definition backend_payload (payload : json) : Prop :=
  exists f resp,
    open_rb E image_path = Ok f /\ post_analyze f = Ok resp /\
    status_code resp = 200%Z /\ resp_json E resp = Ok payload.

(** The backend answered with a status other than 200. *)
Definition backend_refused (resp : Response) : Prop :=
  exists f,
    open_rb E image_path = Ok f /\ post_analyze f = Ok resp /\
    status_code resp <> 200%Z.

(** Opening the file, posting it, or decoding the 200 body raised [e]. *)
Definition attempt_raised (e : exn) : Prop :=
  open_rb E image_path = Raise e \/
  (exists f, open_rb E image_path = Ok f /\ post_analyze f = Raise e) \/
  (exists f resp,
     open_rb E image_path = Ok f /\ post_analyze f = Ok resp /\
     status_code resp = 200%Z /\ resp_json E resp = Raise e).

(** The seven ways [analyze_plant] ends, with what it returns in each. *)
Inductive analyze_plant_outcome : json -> Prop :=
| out_invalid_plant :
    valid_plant plant = false ->
    analyze_plant_outcome
      (error_envelope "Invalid plant type"
         [("details", JStr "Plant must be one of: potato, tomato, pepper")])
| out_file_not_found :
    valid_plant plant = true -> path_exists E image_path = Ok false ->
    analyze_plant_outcome
      (error_envelope "File not found"
         [("details", JStr ("Image file does not exist: " ++ image_path))])
| out_payload (payload : json) :
    valid_plant plant = true -> path_exists E image_path = Ok true ->
    backend_payload payload ->
    analyze_plant_outcome payload
| out_fastapi_error (resp : Response) :
    valid_plant plant = true -> path_exists E image_path = Ok true ->
    backend_refused resp ->
    analyze_plant_outcome
      (error_envelope "FastAPI error"
         [("status_code", JInt (status_code resp));
          ("details", JStr (text resp))])
| out_timeout (e : exn) :
    valid_plant plant = true -> path_exists E image_path = Ok true ->
    attempt_raised e -> isinstance_Timeout e = true ->
    analyze_plant_outcome
      (error_envelope "Request timed out"
         [("details", JStr "FastAPI server did not respond within 30 seconds")])
| out_connection (e : exn) :
    valid_plant plant = true -> path_exists E image_path = Ok true ->
    attempt_raised e -> isinstance_Timeout e = false ->
    isinstance_ConnectionError e = true ->
    analyze_plant_outcome
      (error_envelope "Connection failed"
         [("details",
           JStr ("Could not connect to FastAPI server at " ++ FASTAPI_URL))])
| out_unexpected (e : exn) :
    valid_plant plant = true -> path_exists E image_path = Ok true ->
    attempt_raised e -> isinstance_Timeout e = false ->
    isinstance_ConnectionError e = false ->
    analyze_plant_outcome
      (error_envelope "Unexpected error" [("details", JStr (exn_msg e))]).

End AnalyzePlantOutcome.

Section HealthCheckOutcome.

Import mcp_server.

Variable E : mcp_server.Env.

Definition get_health : result Response :=
  requests_get E (FASTAPI_URL ++ "/health") 5.

(** The request, or the decoding of a 200 body announced as JSON, raised
    [e]. *)
Definition probe_raised (e : exn) : Prop :=
  get_health = Raise e \/
  (exists resp,
     get_health = Ok resp /\ status_code resp = 200%Z /\
     content_type resp = Some "application/json" /\
     resp_json E resp = Raise e).

(** The four ways [health_check] ends, with what it returns in each. *)
Inductive health_check_outcome : json -> Prop :=
| out_healthy_json (resp : Response) (body : json) :
    get_health = Ok resp -> status_code resp = 200%Z ->
    content_type resp = Some "application/json" ->
    resp_json E resp = Ok body ->
    health_check_outcome
      (JObj [("status", JStr "healthy"); ("backend_url", JStr FASTAPI_URL);
             ("response", body)])
| out_healthy_text (resp : Response) :
    get_health = Ok resp -> status_code resp = 200%Z ->
    content_type resp <> Some "application/json" ->
    health_check_outcome
      (JObj [("status", JStr "healthy"); ("backend_url", JStr FASTAPI_URL);
             ("response", JStr (text resp))])
| out_unhealthy (resp : Response) :
    get_health = Ok resp -> status_code resp <> 200%Z ->
    health_check_outcome
      (JObj [("status", JStr "unhealthy");
             ("status_code", JInt (status_code resp));
             ("details", JStr (text resp))])
| out_unreachable (e : exn) :
    probe_raised e -> isinstance_ConnectionError e = true ->
    health_check_outcome
      (JObj [("status", JStr "unreachable");
             ("details",
              JStr ("Cannot connect to FastAPI server at " ++ FASTAPI_URL))])
| out_error (e : exn) :
    probe_raised e -> isinstance_ConnectionError e = false ->
    health_check_outcome
      (JObj [("status", JStr "error"); ("details", JStr (exn_msg e))]).

End HealthCheckOutcome.

(** The shapes of a [health_check] result. *)
Definition health_shape (v : json) : Prop :=
  (exists response,
     v = JObj [("status", JStr "healthy");
               ("backend_url", JStr mcp_server.FASTAPI_URL);
               ("response", response)]) \/
  (exists code details,
     code <> 200%Z /\
     v = JObj [("status", JStr "unhealthy"); ("status_code", JInt code);
               ("details", JStr details)]) \/
  (exists status details,
     (status = "unreachable" \/ status = "error") /\
     v = JObj [("status", JStr status); ("details", JStr details)]).

(** The two shapes the specification lists: on a 200 reply the keys
    status, backend_url and response; otherwise the keys status and
    details, the status being unreachable or error. *)
Definition listed_health_shape (v : json) : Prop :=
  (exists status backend_url response,
     v = JObj [("status", status); ("backend_url", backend_url);
               ("response", response)]) \/
  (exists status details,
     (status = "unreachable" \/ status = "error") /\
     v = JObj [("status", JStr status); ("details", details)]).

End spec.

Import spec.

(* ===================================================================== *)
(** * More of the Python substrate: prefixes, suffixes, base64 *)
(* ===================================================================== *)

Module PyText.

(** Whether some character of [s] satisfies [p]. *)
Fixpoint has_char (p : ascii -> bool) (s : string) : bool :=
  match s with
  | EmptyString => false
  | String c r => p c || has_char p r
  end.

(** [s.startswith(p)]. *)
Fixpoint startswith (s p : string) : bool :=
  match p, s with
  | EmptyString, _ => true
  | String a p', String b s' => Ascii.eqb a b && startswith s' p'
  | String _ _, EmptyString => false
  end.

(** [s.endswith(p)]. *)
Definition endswith (s p : string) : bool :=
  startswith (rev_string s) (rev_string p).

Definition B64_ALPHABET : string :=
  "ABCDEFGHIJKLMNOPQRSTUVWXYZabcdefghijklmnopqrstuvwxyz0123456789+/".

Definition b64_char (n : nat) : ascii :=
  match String.get n B64_ALPHABET with
  | Some c => c
  | None => "="%char
  end.

(** [base64.b64encode(data).decode("utf-8")]: three bytes give four
    characters; a last group of one or two bytes is padded with [=]. *)
Fixpoint b64encode (data : string) : string :=
  match data with
  | EmptyString => EmptyString
  | String a EmptyString =>
      let x := nat_of_ascii a in
      String (b64_char (x / 4))
        (String (b64_char (x mod 4 * 16)) "==")
  | String a (String b EmptyString) =>
      let x := nat_of_ascii a in
      let y := nat_of_ascii b in
      String (b64_char (x / 4))
        (String (b64_char (x mod 4 * 16 + y / 16))
           (String (b64_char (y mod 16 * 4)) "="))
  | String a (String b (String c r)) =>
      let x := nat_of_ascii a in
      let y := nat_of_ascii b in
      let z := nat_of_ascii c in
      String (b64_char (x / 4))
        (String (b64_char (x mod 4 * 16 + y / 16))
           (String (b64_char (y mod 16 * 4 + z / 64))
              (String (b64_char (z mod 64)) (b64encode r))))
  end.

End PyText.

Export PyText.

(* ===================================================================== *)
(** * fastapi_server.py: the audio route *)
(* ===================================================================== *)

Module fastapi_audio.

(** GET /audio/{filename}: the file served and its media type. *)
Definition serve_audio (filename : string) : string * string :=
  ("audio/" ++ filename, "audio/mpeg").

End fastapi_audio.

(* ===================================================================== *)
(** * mcp_server.py: play_audio *)
(* ===================================================================== *)

Module mcp_audio.

Import mcp_server.

(** A response with its body as bytes ([resp.content]). *)
Record Download : Type := {
  reply : Response;
  content : string
}.

Section PlayAudio.

(** [requests.get(url, timeout=t)]. *)
Variable requests_get : string -> Z -> result Download.

(** Lines 124 to 127: the path is made to start with a slash. *)
Definition normalize_url (audio_url : string) : string :=
  if negb (startswith audio_url "/") then "/" ++ audio_url else audio_url.

(** Lines 142 to 146. *)
Definition audio_format_of (audio_url : string) : string :=
  if endswith audio_url ".wav" then "wav"
  else if endswith audio_url ".ogg" then "ogg"
  else "mp3".

Definition play_audio (audio_url : string) : M json :=
  let audio_url := normalize_url audio_url in
  let full_url := FASTAPI_URL ++ audio_url in
  try_except
    (resp <- call (EvGet full_url) (requests_get full_url 30) ;;
     if negb (status_code (reply resp) =? 200)%Z then
       ret (error_envelope "Failed to download audio"
              [("status_code", JInt (status_code (reply resp)));
               ("details", JStr (text (reply resp)))])
     else
       let audio_base64 := b64encode (content resp) in
       let audio_format := audio_format_of audio_url in
       ret (JObj [("success", JBool true);
                  ("audio_data", JStr audio_base64);
                  ("format", JStr audio_format);
                  ("size_bytes", JInt (Z.of_nat (String.length (content resp))))]))
    (fun e =>
       if isinstance_Timeout e then
         ret (error_envelope "Request timed out" [])
       else if isinstance_ConnectionError e then
         ret (error_envelope "Connection failed"
                [("details", JStr ("Could not connect to " ++ FASTAPI_URL))])
       else
         ret (error_envelope "Unexpected error" [("details", JStr (exn_msg e))])).

End PlayAudio.

End mcp_audio.

(* ===================================================================== *)
(** * More vocabulary and example environments *)
(* ===================================================================== *)

Module spec_more.

Import fastapi_server.

(** The text contains a run of three backticks. *)
Definition has_fence (s : string) : Prop :=
  exists pre post, s = pre ++ FENCE ++ post.

(** The text after a fence the text opens with. *)
Definition strip_fence (s : string) : option string :=
  match s with
  | String a (String b (String c r)) =>
      if is_backtick a && is_backtick b && is_backtick c then Some r else None
  | _ => None
  end.

(** The text opens with two backticks. *)
Definition starts_two_backticks (s : string) : bool :=
  match s with
  | String a (String b _) => is_backtick a && is_backtick b
  | _ => false
  end.

(** A byte of a white-space character: ASCII white space, or a byte of a
    multi-byte sequence. *)
Definition is_ws_byte (c : ascii) : bool :=
  is_ascii_ws c || (128 <=? nat_of_ascii c)%nat.

Definition not_ws_byte (c : ascii) : bool := negb (is_ws_byte c).


Definition LBRACE : string := "{".
Definition RBRACE : string := "}".

(** [p] is an initial part of [l]. *)
Definition is_prefix_of {A} (p l : list A) : Prop :=
  exists rest, l = (p ++ rest)%list.

Section PlantInfoOutcome.

Import mcp_server.

Variable T : mcp_server.Env.
Variable plant : string.

Definition get_plant_info : result Response :=
  requests_get T (FASTAPI_URL ++ "/plant_info/" ++ lower plant) 10.

(** The request, or the decoding of the 200 body, raised [e]. *)
Definition info_raised (e : exn) : Prop :=
  get_plant_info = Raise e \/
  (exists resp, get_plant_info = Ok resp /\ status_code resp = 200%Z /\
                resp_json T resp = Raise e).

Inductive plant_info_outcome : json -> Prop :=
| pi_invalid_plant :
    valid_plant plant = false ->
    plant_info_outcome
      (error_envelope "Invalid plant type"
         [("supported_plants",
           JArr [JStr "potato"; JStr "tomato"; JStr "pepper"])])
| pi_payload (resp : Response) (payload : json) :
    valid_plant plant = true ->
    get_plant_info = Ok resp -> status_code resp = 200%Z ->
    resp_json T resp = Ok payload ->
    plant_info_outcome payload
| pi_not_implemented (resp : Response) :
    valid_plant plant = true ->
    get_plant_info = Ok resp -> status_code resp = 404%Z ->
    plant_info_outcome
      (error_envelope "Endpoint not implemented"
         [("details", JStr "FastAPI server does not have /plant_info endpoint")])
| pi_api_error (resp : Response) :
    valid_plant plant = true ->
    get_plant_info = Ok resp ->
    status_code resp <> 404%Z -> status_code resp <> 200%Z ->
    plant_info_outcome
      (error_envelope "API error" [("details", JStr (text resp))])
| pi_connection (e : exn) :
    valid_plant plant = true ->
    info_raised e -> isinstance_ConnectionError e = true ->
    plant_info_outcome (error_envelope "Connection failed" [])
| pi_other (e : exn) :
    valid_plant plant = true ->
    info_raised e -> isinstance_ConnectionError e = false ->
    plant_info_outcome (error_envelope (exn_msg e) []).

End PlantInfoOutcome.

Section PlayAudioOutcome.

Import mcp_server mcp_audio.

Variable requests_get : string -> Z -> result Download.
Variable audio_url : string.

Definition get_audio : result Download :=
  requests_get (FASTAPI_URL ++ normalize_url audio_url) 30.

Inductive play_audio_outcome : json -> Prop :=
| pa_success (resp : Download) :
    get_audio = Ok resp -> status_code (reply resp) = 200%Z ->
    play_audio_outcome
      (JObj [("success", JBool true);
             ("audio_data", JStr (b64encode (content resp)));
             ("format", JStr (audio_format_of (normalize_url audio_url)));
             ("size_bytes", JInt (Z.of_nat (String.length (content resp))))])
| pa_failed (resp : Download) :
    get_audio = Ok resp -> status_code (reply resp) <> 200%Z ->
    play_audio_outcome
      (error_envelope "Failed to download audio"
         [("status_code", JInt (status_code (reply resp)));
          ("details", JStr (text (reply resp)))])
| pa_timeout (e : exn) :
    get_audio = Raise e -> isinstance_Timeout e = true ->
    play_audio_outcome (error_envelope "Request timed out" [])
| pa_connection (e : exn) :
    get_audio = Raise e -> isinstance_Timeout e = false ->
    isinstance_ConnectionError e = true ->
    play_audio_outcome
      (error_envelope "Connection failed"
         [("details", JStr ("Could not connect to " ++ FASTAPI_URL))])
| pa_unexpected (e : exn) :
    get_audio = Raise e -> isinstance_Timeout e = false ->
    isinstance_ConnectionError e = false ->
    play_audio_outcome
      (error_envelope "Unexpected error" [("details", JStr (exn_msg e))]).

End PlayAudioOutcome.

End spec_more.

Import spec_more.

Module more_examples.

Import fastapi_server.

(** A server whose models all answer [scores], whose text generator
    answers [llm] and whose speech synthesis answers [tts]. *)
Definition backend (scores : list Q) (llm : result string) (tts : result unit)
  : fastapi_server.Env :=
  {| fastapi_server.runtime := json_ref.runtime;
     ndarray := unit;
     read_file_as_image := fun _ => Ok tt;
     predict := fun _ _ => Ok scores;
     generate_llm_explanation := fun _ _ => llm;
     generate_llm_info := fun _ => llm;
     uuid4 := "1b4e28ba-2fa1-41d2-883f-0016d3cca427";
     gtts_save := fun _ _ => tts |}.

Definition OFFLINE : exn := Exn ConnectionError "Connection refused".

Definition DISK_FULL : exn := Exn OSError "No space left on device".

(** A 200 answer carrying three bytes of audio. *)
Definition MP3_REPLY : mcp_audio.Download :=
  {| mcp_audio.reply :=
       {| mcp_server.status_code := 200;
          mcp_server.content_type := Some "audio/mpeg";
          mcp_server.text := "ID3" |};
     mcp_audio.content := "ID3" |}.

(** The text [{"error": "Invalid JSON", "raw": "x"}]: an object that has
    the keys of the fallback envelope. *)
Definition ERROR_OBJECT : string :=
  "{" ++ dq ++ "error" ++ dq ++ ": " ++ dq ++ "Invalid JSON" ++ dq ++ ", "
      ++ dq ++ "raw" ++ dq ++ ": " ++ dq ++ "x" ++ dq ++ "}".

(** A backend that answers every download with [r]. *)
Definition audio_backend (r : result mcp_audio.Download)
  : string -> Z -> result mcp_audio.Download :=
  fun _ _ => r.

End more_examples.

(* ===================================================================== *)
(** * Properties *)
(* ===================================================================== *)

Import fastapi_server.

(** The three [except] clauses of [analyze_plant], once the outcome of each
    is known. *)
Ltac raised_branch Hraise e Hatt :=
  let Hr := fresh "Hr" in
  pose proof (Hraise e Hatt) as Hr;
  destruct (isinstance_Timeout e);
    [|destruct (isinstance_ConnectionError e)];
    (eexists; eexists; split; [reflexivity|]; split; [exact Hr|discriminate]).

(** ** Strings *)

Lemma find_fence_length (s pre post : string) :
  find_fence s = Some (pre, post) ->
  String.length s = String.length pre + 3 + String.length post.
Proof.
  revert pre post.
  induction s as [|a t IH]; intros pre post H; simpl in H; [discriminate|].
  assert (Hskip :
    match find_fence t with
    | Some (pre0, post0) => Some (String a pre0, post0)
    | None => None
    end = Some (pre, post) ->
    String.length (String a t) = String.length pre + 3 + String.length post).
  { destruct (find_fence t) as [[pre0 post0]|] eqn:Ht; [|discriminate].
    intros Heq; injection Heq as <- <-.
    simpl. rewrite (IH pre0 post0 eq_refl). reflexivity. }
  destruct t as [|b [|c r]]; try (apply Hskip; exact H).
  destruct (is_backtick a && is_backtick b && is_backtick c).
  - injection H as <- <-. simpl. lia.
  - apply Hskip; exact H.
Qed.

(** The fuel of [sub_fenced] is never the reason it stops: any fuel at
    least the length of the text gives the same result. *)
Lemma sub_fenced_enough_fuel (n m : nat) (s : string) :
  String.length s <= n -> String.length s <= m ->
  sub_fenced n s = sub_fenced m s.
Proof.
  revert m s.
  induction n as [|n IH]; intros m s Hn Hm.
  - destruct s; [|simpl in Hn; lia].
    destruct m; reflexivity.
  - destruct m as [|m].
    + destruct s; [reflexivity|simpl in Hm; lia].
    + simpl.
      destruct (find_fence s) as [[pre after_open]|] eqn:H1; [|reflexivity].
      destruct (find_fence after_open) as [[body rest]|] eqn:H2; [|reflexivity].
      apply find_fence_length in H1. apply find_fence_length in H2.
      rewrite (IH m rest) by lia. reflexivity.
Qed.

(** ** clean_llm_json *)

Lemma fallback_envelope_fields (err raw : string) :
  dict_get (fallback_envelope err raw) "error" JNull = Ok (JStr err) /\
  dict_get (fallback_envelope err raw) "raw" JNull = Ok (JStr raw).
Proof. split; reflexivity. Qed.

(** An exception of [json.loads] other than [JSONDecodeError] is not caught
    by [clean_llm_json]. *)
Lemma clean_llm_json_propagates (rt : Runtime) (raw_text : string) (e : exn) :
  json_loads rt (extract_json raw_text) = Raise e ->
  isinstance_JSONDecodeError e = false ->
  clean_llm_json rt raw_text = Raise e.
Proof.
  intros Hl He. unfold clean_llm_json. rewrite Hl, He. reflexivity.
Qed.

(** C1, as the specification states it, fails: on an integer literal of
    4301 digits [json.loads] raises a [ValueError], which the handler of
    [clean_llm_json] does not catch, so [clean_llm_json] raises. *)
Lemma clean_llm_json_raises_on_long_integer :
  String.length examples.LONG_INTEGER = 4301 /\
  exists msg,
    clean_llm_json json_ref.runtime examples.LONG_INTEGER
    = Raise (Exn ValueError msg).
Proof.
  split; [vm_compute; reflexivity|].
  eexists. vm_compute. reflexivity.
Qed.

(** C1, amended. For every input string on which [json.loads], applied to
    the extracted text, returns or raises [JSONDecodeError],
    [clean_llm_json] returns (it does not raise), and what it returns is
    either the decoded document or the fallback envelope whose [raw] field
    is the input string itself, before any stripping.  An exception of
    [json.loads] of another class is not caught. *)
Theorem clean_llm_json_total (rt : Runtime) (raw_text : string) :
  ((forall e, json_loads rt (extract_json raw_text) = Raise e ->
              isinstance_JSONDecodeError e = true) ->
   exists v : json,
     clean_llm_json rt raw_text = Ok v /\
     (json_loads rt (extract_json raw_text) = Ok v \/
      (v = fallback_envelope "Invalid JSON" raw_text /\
       dict_get v "raw" JNull = Ok (JStr raw_text)))) /\
  (forall e, json_loads rt (extract_json raw_text) = Raise e ->
             isinstance_JSONDecodeError e = false ->
             clean_llm_json rt raw_text = Raise e).
Proof.
  split.
  - intros Hdoc. unfold clean_llm_json.
    destruct (json_loads rt (extract_json raw_text)) as [doc|e] eqn:Hl.
    + exists doc. split; [reflexivity|]. left; reflexivity.
    + rewrite (Hdoc e eq_refl).
      exists (fallback_envelope "Invalid JSON" raw_text).
      split; [reflexivity|]. right. split; reflexivity.
  - apply clean_llm_json_propagates.
Qed.

(** On a fenced answer that is no JSON the envelope keeps the fences, the
    language tag and the surrounding white space. *)
Lemma clean_llm_json_total_witness :
  exists v : json,
    clean_llm_json json_ref.runtime " ```json oops``` " = Ok v /\
    (json_loads json_ref.runtime (extract_json " ```json oops``` ") = Ok v \/
     (v = fallback_envelope "Invalid JSON" " ```json oops``` " /\
      dict_get v "raw" JNull = Ok (JStr " ```json oops``` "))).
Proof.
  apply (proj1 (clean_llm_json_total json_ref.runtime " ```json oops``` ")).
  intros e He. vm_compute in He. injection He as <-. reflexivity.
Defined.

(** C2, as the specification states it, fails: the text [{}] decodes, the
    decoded document has none of the five required keys, and
    [clean_llm_json] returns that document, not a fallback envelope. *)
Lemma clean_llm_json_keeps_incomplete_document :
  json_loads json_ref.runtime (extract_json "{}") = Ok (JObj []) /\
  has_required_keys (JObj []) = false /\
  clean_llm_json json_ref.runtime "{}" = Ok (JObj []) /\
  clean_llm_json json_ref.runtime "{}"
    <> Ok (fallback_envelope "Invalid JSON" "{}").
Proof.
  repeat split; try reflexivity.
  vm_compute. discriminate.
Qed.

(** C2, amended. Whatever [json.loads] decodes from the extracted text is
    returned as it is, whether or not the five required keys are present;
    the fallback envelope with the original text is returned exactly when
    decoding raises [JSONDecodeError]. *)
Theorem clean_llm_json_returns_decoded (rt : Runtime) (raw_text : string) :
  (forall doc, json_loads rt (extract_json raw_text) = Ok doc ->
               clean_llm_json rt raw_text = Ok doc) /\
  (forall e, json_loads rt (extract_json raw_text) = Raise e ->
             isinstance_JSONDecodeError e = true ->
             clean_llm_json rt raw_text
               = Ok (fallback_envelope "Invalid JSON" raw_text)).
Proof.
  unfold clean_llm_json. split.
  - intros doc ->. reflexivity.
  - intros e -> ->. reflexivity.
Qed.

Lemma clean_llm_json_returns_decoded_witness :
  clean_llm_json json_ref.runtime ("Sure: " ++ examples.TREATMENT_ONLY)
    = Ok (JObj [("recommended_treatment", JStr "Remove infected leaves")]) /\
  has_required_keys
    (JObj [("recommended_treatment", JStr "Remove infected leaves")]) = false /\
  clean_llm_json json_ref.runtime "no json here"
    = Ok (fallback_envelope "Invalid JSON" "no json here").
Proof.
  split; [|split].
  - apply (proj1 (clean_llm_json_returns_decoded json_ref.runtime
                    ("Sure: " ++ examples.TREATMENT_ONLY))).
    vm_compute. reflexivity.
  - reflexivity.
  - apply (proj2 (clean_llm_json_returns_decoded json_ref.runtime "no json here")
             json_ref.syntax_error).
    + vm_compute. reflexivity.
    + reflexivity.
Defined.

(** ** numpy *)

Lemma Qlt_bool_true (a b : Q) : np.Qlt_bool a b = true -> (a < b)%Q.
Proof.
  unfold np.Qlt_bool. intros H. apply negb_true_iff in H.
  apply Qnot_le_lt. intros Hle. apply Qle_bool_iff in Hle. congruence.
Qed.

Lemma Qlt_bool_false (a b : Q) : np.Qlt_bool a b = false -> (b <= a)%Q.
Proof.
  unfold np.Qlt_bool. intros H. apply negb_false_iff in H.
  apply Qle_bool_iff. exact H.
Qed.

(** The scan invariant: [p] is the part of the vector already seen, [bi]
    the first index of its greatest value [b]. *)
Lemma argmax_from_first (l p : list Q) (bi : nat) (b : Q) :
  first_argmax p bi b ->
  first_argmax (p ++ l)%list (np.argmax_from l (length p) bi b) (np.max_from l b).
Proof.
  revert p bi b.
  induction l as [|x r IH]; intros p bi b Hp; simpl.
  - rewrite app_nil_r. exact Hp.
  - destruct Hp as (Hbi & Hmax & Hfirst).
    assert (Hnth : forall j y, nth_error (p ++ [x])%list j = Some y ->
                     (j < length p /\ nth_error p j = Some y)
                     \/ (j = length p /\ y = x)).
    { intros j y Hj.
      destruct (Nat.lt_ge_cases j (length p)) as [Hlt|Hge].
      - left. split; [exact Hlt|]. rewrite nth_error_app1 in Hj; assumption.
      - right. rewrite nth_error_app2 in Hj by exact Hge.
        destruct (j - length p) as [|k] eqn:Hk.
        + simpl in Hj. injection Hj as <-. split; [lia|reflexivity].
        + simpl in Hj. destruct k; discriminate. }
    assert (Hbound : bi < length p)
      by (apply nth_error_Some; rewrite Hbi; discriminate).
    assert (Hstep : forall bi' b',
              first_argmax (p ++ [x])%list bi' b' ->
              first_argmax (p ++ x :: r)%list
                (np.argmax_from r (S (length p)) bi' b') (np.max_from r b')).
    { intros bi' b' H'. specialize (IH (p ++ [x])%list bi' b' H').
      rewrite length_app, <- app_assoc in IH. simpl in IH.
      rewrite Nat.add_1_r in IH. exact IH. }
    destruct (np.Qlt_bool b x) eqn:Hlt; apply Hstep.
    + apply Qlt_bool_true in Hlt. split; [|split].
      * rewrite nth_error_app2 by lia.
        rewrite Nat.sub_diag. reflexivity.
      * intros j y Hj. destruct (Hnth j y Hj) as [[_ Hy]|[_ ->]].
        -- apply Qlt_le_weak. eapply Qle_lt_trans; [apply (Hmax j y Hy)|exact Hlt].
        -- apply Qle_refl.
      * intros j y Hji Hj. destruct (Hnth j y Hj) as [[_ Hy]|[Hjl _]]; [|lia].
        eapply Qle_lt_trans; [apply (Hmax j y Hy)|exact Hlt].
    + apply Qlt_bool_false in Hlt. split; [|split].
      * rewrite nth_error_app1; [exact Hbi|exact Hbound].
      * intros j y Hj. destruct (Hnth j y Hj) as [[_ Hy]|[_ ->]].
        -- apply (Hmax j y Hy).
        -- exact Hlt.
      * intros j y Hji Hj. destruct (Hnth j y Hj) as [[_ Hy]|[Hjl _]].
        -- apply (Hfirst j y Hji Hy).
        -- lia.
Qed.

(** On a vector that is not empty [np.argmax] and [np.max] return, and
    they agree: the index is the first one of the greatest score, and the
    score is the one at that index. *)
Lemma argmax_max_first (v : list Q) :
  v <> [] ->
  exists i c, np.argmax v = Ok i /\ np.max v = Ok c /\ first_argmax v i c.
Proof.
  destruct v as [|x r]; [congruence|]. intros _.
  exists (np.argmax_from r 1 0 x), (np.max_from r x).
  split; [reflexivity|]. split; [reflexivity|].
  apply (argmax_from_first r [x] 0 x).
  split; [reflexivity|]. split.
  - intros [|[|j]] y Hj; simpl in Hj; try discriminate.
    injection Hj as <-. apply Qle_refl.
  - intros j y Hj. lia.
Qed.

Lemma first_argmax_in_range (v : list Q) (i : nat) (c : Q) :
  first_argmax v i c -> i < length v.
Proof.
  intros (Hi & _). apply nth_error_Some. rewrite Hi. discriminate.
Qed.

(** ** The dispatch on the plant type *)

Lemma vocabulary_valid_plant (plant : string) :
  valid_plant plant = match vocabulary plant with Some _ => true | None => false end.
Proof.
  unfold valid_plant, vocabulary, str_in. simpl.
  destruct (lower plant =? "potato"); [reflexivity|].
  destruct (lower plant =? "pepper"); [simpl; apply orb_true_r|].
  destruct (lower plant =? "tomato"); reflexivity.
Qed.

Lemma valid_plant_iff (plant : string) :
  valid_plant plant = true <->
  lower plant = "potato" \/ lower plant = "tomato" \/ lower plant = "pepper".
Proof.
  unfold valid_plant, str_in. simpl.
  rewrite !orb_true_iff, !String.eqb_eq. intuition congruence.
Qed.

Lemma vocabulary_classes (plant : string) (m : model_id) (classes : list string) :
  vocabulary plant = Some (m, classes) ->
  classes <> [] /\ In "Healthy" classes.
Proof.
  unfold vocabulary.
  destruct (lower plant =? "potato");
    [|destruct (lower plant =? "pepper"); [|destruct (lower plant =? "tomato")]];
    intros H; try discriminate; injection H as <- <-;
    (split; [discriminate|simpl; tauto]).
Qed.

Lemma vision_agent_dispatch (E : Env) (plant : string) (img : ndarray E)
      (t : list event) :
  vision_agent E plant img t =
  match vocabulary plant with
  | Some (m, classes) =>
      ('(disease, preds) <- classify_with E m classes img ;;
       confidence <- lift (np.max preds) ;;
       ret (disease, confidence)) t
  | None => (Raise INVALID_PLANT, t)
  end.
Proof.
  unfold vision_agent, vocabulary.
  destruct (lower plant =? "potato"); [reflexivity|].
  destruct (lower plant =? "pepper"); [reflexivity|].
  destruct (lower plant =? "tomato"); reflexivity.
Qed.

(** The vision agent on a supported plant whose model scores every class. *)
Lemma vision_agent_classifies (E : Env) (plant : string) (img : ndarray E)
      (m : model_id) (classes : list string) (preds : list Q) (t : list event) :
  vocabulary plant = Some (m, classes) ->
  predict E m img = Ok preds ->
  length preds = length classes ->
  exists i disease c,
    first_argmax preds i c /\
    nth_error classes i = Some disease /\
    vision_agent E plant img t = (Ok (disease, c), (t ++ [EvPredict m])%list).
Proof.
  intros Hv Hp Hlen.
  destruct (vocabulary_classes _ _ _ Hv) as [Hne _].
  assert (Hpne : preds <> []).
  { intros ->. destruct classes; [congruence|discriminate]. }
  destruct (argmax_max_first preds Hpne) as (i & c & Hai & Hmx & Hfirst).
  assert (Hi : i < length classes).
  { rewrite <- Hlen. eapply first_argmax_in_range; exact Hfirst. }
  destruct (nth_error classes i) as [disease|] eqn:Hd;
    [|apply nth_error_None in Hd; lia].
  exists i, disease, c. split; [exact Hfirst|]. split; [exact Hd|].
  rewrite vision_agent_dispatch, Hv.
  unfold classify_with, bind, call, lift, ret, getitem.
  rewrite Hp, Hai, Hd, Hmx. reflexivity.
Qed.

(** ** What a successful /analyze run went through *)

Lemma analyze_ok_inv (E : Env) (plant file : string)
      (r : DiagnosisResponse) (tr : list event) :
  run (analyze E plant file) = (Ok r, tr) ->
  exists img m classes preds i disease c llm speech,
    read_file_as_image E file = Ok img /\
    vocabulary plant = Some (m, classes) /\
    predict E m img = Ok preds /\
    np.argmax preds = Ok i /\
    getitem classes i = Ok disease /\
    np.max preds = Ok c /\
    generate_llm_explanation E plant disease = Ok llm /\
    speech_text E plant disease (parse_or_fallback E llm) = Ok speech /\
    r = {| resp_plant := plant;
           resp_predicted_disease := disease;
           resp_confidence := c;
           resp_explanation := parse_or_fallback E llm;
           resp_audio_url := "/audio/" ++ last_segment (audio_path E) |} /\
    tr = [EvImageDecode; EvPredict m; EvExplain plant disease;
          EvSpeech speech (audio_path E)].
Proof.
  unfold run, analyze. unfold bind at 1. unfold call at 1.
  destruct (read_file_as_image E file) as [img|e] eqn:Himg; [|discriminate].
  unfold bind at 1. rewrite vision_agent_dispatch.
  destruct (vocabulary plant) as [[m classes]|] eqn:Hv; [|discriminate].
  unfold classify_with, language_agent, generate_audio, bind, call, lift, ret.
  destruct (predict E m img) as [preds|e] eqn:Hp; [|discriminate].
  destruct (np.argmax preds) as [i|e] eqn:Hai; [|discriminate].
  destruct (getitem classes i) as [disease|e] eqn:Hd; [|discriminate].
  destruct (np.max preds) as [c|e] eqn:Hmx; [|discriminate].
  destruct (generate_llm_explanation E plant disease) as [llm|e] eqn:Hllm;
    [|discriminate].
  destruct (speech_text E plant disease (parse_or_fallback E llm))
    as [speech|e] eqn:Hs; [|discriminate].
  destruct (gtts_save E speech _) as [u|e] eqn:Hg; [|discriminate].
  intros H. injection H as <- <-.
  exists img, m, classes, preds, i, disease, c, llm, speech.
  repeat (split; [first [assumption | reflexivity]|]). reflexivity.
Qed.

(** The run of /analyze once the vision agent has answered. *)
Lemma analyze_after_vision
      (E : Env) (plant file : string) (img : ndarray E)
      (d : string) (c : Q) (tr1 : list event) :
  read_file_as_image E file = Ok img ->
  vision_agent E plant img [EvImageDecode] = (Ok (d, c), tr1) ->
  run (analyze E plant file) =
  match generate_llm_explanation E plant d with
  | Raise e => (Raise e, (tr1 ++ [EvExplain plant d])%list)
  | Ok llm =>
      match speech_text E plant d (parse_or_fallback E llm) with
      | Raise e => (Raise e, (tr1 ++ [EvExplain plant d])%list)
      | Ok speech =>
          match gtts_save E speech (audio_path E) with
          | Raise e =>
              (Raise e,
               ((tr1 ++ [EvExplain plant d]) ++ [EvSpeech speech (audio_path E)])%list)
          | Ok _ =>
              (Ok {| resp_plant := plant;
                     resp_predicted_disease := d;
                     resp_confidence := c;
                     resp_explanation := parse_or_fallback E llm;
                     resp_audio_url := "/audio/" ++ last_segment (audio_path E) |},
               ((tr1 ++ [EvExplain plant d]) ++ [EvSpeech speech (audio_path E)])%list)
          end
      end
  end.
Proof.
  intros Himg Hv.
  unfold run, analyze. unfold bind at 1. unfold call at 1.
  rewrite Himg. unfold bind at 1. simpl app. rewrite Hv.
  unfold language_agent, generate_audio, bind, call, lift, ret.
  destruct (generate_llm_explanation E plant d) as [llm|e]; [|reflexivity].
  destruct (speech_text E plant d (parse_or_fallback E llm)) as [speech|e];
    [|reflexivity].
  change ("audio" ++ "/" ++ uuid4 E ++ ".mp3") with (audio_path E).
  destruct (gtts_save E speech (audio_path E)) as [u|e]; reflexivity.
Qed.


Lemma potato_run :
  run (analyze (examples.server examples.TREATMENT_ONLY) "Potato" "upload")
  = (Ok examples.potato_response, examples.potato_trace).
Proof. vm_compute. reflexivity. Qed.

(** A request for a plant type outside the enumeration: the upload is
    decoded, and nothing else happens. *)
Lemma analyze_rejects (E : Env) (plant file : string) :
  valid_plant plant = false ->
  run (analyze E plant file)
    = (match read_file_as_image E file with
       | Ok _ => Raise INVALID_PLANT
       | Raise e => Raise e
       end, [EvImageDecode]).
Proof.
  intros Hinv. rewrite vocabulary_valid_plant in Hinv.
  unfold run, analyze. unfold bind at 1. unfold call at 1.
  destruct (read_file_as_image E file) as [img|e]; [|reflexivity].
  unfold bind at 1. rewrite vision_agent_dispatch.
  destruct (vocabulary plant) as [[m classes]|]; [discriminate|reflexivity].
Qed.

(** C3, as the specification states it, fails: on the plant type [banana]
    the upload is decoded before the plant type is looked at, and when the
    upload is no image the request fails with the decoder's error, not with
    the invalid-plant-type error. *)
Lemma analyze_decodes_before_validation :
  valid_plant "banana" = false /\
  run (analyze (examples.server "{}") "banana" "upload")
    = (Raise INVALID_PLANT, [EvImageDecode]) /\
  In EvImageDecode (snd (run (analyze (examples.server "{}") "banana" "upload"))) /\
  run (analyze examples.server_bad_image "banana" "upload")
    = (Raise (Exn OSError "cannot identify image file"), [EvImageDecode]) /\
  Exn OSError "cannot identify image file" <> INVALID_PLANT.
Proof.
  repeat split; try reflexivity.
  - simpl. left. reflexivity.
  - discriminate.
Qed.

(** C3, amended. When the plant type is outside the closed enumeration,
    /analyze decodes the upload and does nothing else: the decoder is the
    only external call of the request, so no inference, no text generation
    and no speech synthesis happens.  If the upload decodes, the request
    fails with the invalid-plant-type error (status 400); if it does not,
    it fails with the decoder's error. *)
Theorem analyze_invalid_plant (E : Env) (plant file : string) :
  valid_plant plant = false ->
  run (analyze E plant file)
    = (match read_file_as_image E file with
       | Ok _ => Raise INVALID_PLANT
       | Raise e => Raise e
       end, [EvImageDecode]) /\
  (forall m, ~ In (EvPredict m) (snd (run (analyze E plant file)))).
Proof.
  intros Hinv. pose proof (analyze_rejects E plant file Hinv) as Hrun.
  split; [exact Hrun|].
  intros m. rewrite Hrun. simpl. intros [H|[]]. discriminate.
Qed.

Lemma analyze_invalid_plant_witness :
  run (analyze (examples.server "{}") "banana" "upload")
    = (Raise INVALID_PLANT, [EvImageDecode]) /\
  (forall m, ~ In (EvPredict m)
               (snd (run (analyze (examples.server "{}") "banana" "upload")))).
Proof.
  apply (analyze_invalid_plant (examples.server "{}") "banana" "upload").
  reflexivity.
Defined.

(** C5. For a supported plant type and an upload that decodes, when the
    plant's model scores every class of its vocabulary, the vision agent
    returns the class at the first index of the greatest score, together
    with that score; every response of /analyze carries this class as
    [predicted_disease] and this score as [confidence]; and /analyze does
    answer with such a response, after the four calls of the pipeline,
    whenever the text generator answers, the spoken summary can be written
    and the speech is synthesized. *)
Theorem analyze_selects_first_maximum
        (E : Env) (plant file : string) (img : ndarray E)
        (m : model_id) (classes : list string) (preds : list Q) :
  vocabulary plant = Some (m, classes) ->
  read_file_as_image E file = Ok img ->
  predict E m img = Ok preds ->
  length preds = length classes ->
  exists i disease c,
    first_argmax preds i c /\
    nth_error classes i = Some disease /\
    vision_agent E plant img [EvImageDecode]
      = (Ok (disease, c), [EvImageDecode; EvPredict m]) /\
    (forall r tr, run (analyze E plant file) = (Ok r, tr) ->
                  resp_predicted_disease r = disease /\ resp_confidence r = c) /\
    (forall llm speech,
       generate_llm_explanation E plant disease = Ok llm ->
       speech_text E plant disease (parse_or_fallback E llm) = Ok speech ->
       gtts_save E speech (audio_path E) = Ok tt ->
       run (analyze E plant file)
       = (Ok {| resp_plant := plant;
                resp_predicted_disease := disease;
                resp_confidence := c;
                resp_explanation := parse_or_fallback E llm;
                resp_audio_url := "/audio/" ++ last_segment (audio_path E) |},
          [EvImageDecode; EvPredict m; EvExplain plant disease;
           EvSpeech speech (audio_path E)])).
Proof.
  intros Hv Himg Hp Hlen.
  destruct (vision_agent_classifies E plant img m classes preds
              [EvImageDecode] Hv Hp Hlen)
    as (i & disease & c & Hfirst & Hd & Hrun).
  exists i, disease, c.
  split; [exact Hfirst|]. split; [exact Hd|]. split; [exact Hrun|].
  split.
  - intros r tr H. apply analyze_ok_inv in H.
    destruct H as (img' & m' & classes' & preds' & i' & disease' & c' & llm
                   & speech & Himg' & Hv' & Hp' & Hai & Hgi & Hmx & _ & _ & -> & _).
    rewrite Himg in Himg'. injection Himg' as <-.
    rewrite Hv in Hv'. injection Hv' as <- <-.
    rewrite Hp in Hp'. injection Hp' as <-.
    rewrite vision_agent_dispatch, Hv in Hrun.
    unfold classify_with, bind, call, lift, ret in Hrun.
    rewrite Hp, Hai, Hgi, Hmx in Hrun. injection Hrun as -> ->.
    split; reflexivity.
  - intros llm speech Hllm Hs Hg.
    rewrite (analyze_after_vision E plant file img disease c _ Himg Hrun).
    rewrite Hllm, Hs, Hg. reflexivity.
Qed.

(** The pepper model of the example server scores both classes 1/2: the
    earlier class is the one reported. *)
Lemma analyze_selects_first_maximum_witness :
  exists i disease c,
    first_argmax [1 # 2; 1 # 2]%Q i c /\
    nth_error PEPPER_CLASSES i = Some disease /\
    vision_agent (examples.server "{}") "Pepper" tt [EvImageDecode]
      = (Ok (disease, c), [EvImageDecode; EvPredict PEPPER_MODEL]) /\
    (forall r tr,
        run (analyze (examples.server "{}") "Pepper" "upload") = (Ok r, tr) ->
        resp_predicted_disease r = disease /\ resp_confidence r = c) /\
    exists speech,
      run (analyze (examples.server "{}") "Pepper" "upload")
      = (Ok {| resp_plant := "Pepper";
               resp_predicted_disease := disease;
               resp_confidence := c;
               resp_explanation := JObj [];
               resp_audio_url := "/audio/1b4e28ba-2fa1-41d2-883f-0016d3cca427.mp3" |},
         [EvImageDecode; EvPredict PEPPER_MODEL; EvExplain "Pepper" disease;
          EvSpeech speech "audio/1b4e28ba-2fa1-41d2-883f-0016d3cca427.mp3"]).
Proof.
  destruct (analyze_selects_first_maximum (examples.server "{}") "Pepper" "upload"
              tt PEPPER_MODEL PEPPER_CLASSES [1 # 2; 1 # 2]%Q
              eq_refl eq_refl eq_refl eq_refl)
    as (i & disease & c & Hfirst & Hd & Hv & Hr & Hs).
  exists i, disease, c.
  split; [exact Hfirst|]. split; [exact Hd|]. split; [exact Hv|].
  split; [exact Hr|].
  vm_compute in Hv. injection Hv as <- <-.
  eexists. apply (Hs "{}"); reflexivity.
Defined.

(** On an exact tie the first class of the vocabulary is reported. *)
Example pepper_tie_run :
  exists r tr,
    run (analyze (examples.server "{}") "Pepper" "upload") = (Ok r, tr) /\
    resp_predicted_disease r = "Bacterial Spot" /\
    resp_confidence r = (1 # 2)%Q.
Proof. eexists. eexists. split; [vm_compute; reflexivity|]. split; reflexivity. Qed.

(** C6, as the specification states it, fails: when the generated text is
    no JSON, the explanation slot of the response is an envelope whose
    [error] field is the string "LLM produced invalid JSON". *)
Lemma analyze_fallback_error_text :
  exists r tr,
    run (analyze (examples.server "not json") "potato" "upload") = (Ok r, tr) /\
    resp_explanation r = fallback_envelope "LLM produced invalid JSON" "not json" /\
    dict_get (resp_explanation r) "error" JNull <> Ok (JStr "Invalid JSON").
Proof.
  eexists. eexists. split; [vm_compute; reflexivity|].
  split; [reflexivity|]. simpl. discriminate.
Qed.

(** A generated text that is itself an object with an [error] key decodes
    and is kept as it is: the slot then has the keys of the envelope, but
    it is not the envelope /analyze builds, and its [raw] field is not the
    generated text.  So the envelope is told by its cause, a decoding that
    raised, and not by the keys of the slot. *)
Example analyze_keeps_decoded_error_object :
  exists r tr,
    run (analyze (examples.server more_examples.ERROR_OBJECT) "potato" "upload")
      = (Ok r, tr) /\
    resp_explanation r = JObj [("error", JStr "Invalid JSON"); ("raw", JStr "x")] /\
    resp_explanation r
      <> fallback_envelope "LLM produced invalid JSON" more_examples.ERROR_OBJECT /\
    dict_get (resp_explanation r) "raw" JNull
      <> Ok (JStr more_examples.ERROR_OBJECT).
Proof.
  eexists. eexists. split; [vm_compute; reflexivity|].
  split; [reflexivity|]. split; simpl; discriminate.
Qed.

(** C6, amended. The explanation slot of a diagnosis response is decided
    by [json.loads] on the generated text.  When decoding succeeds, the slot
    is the decoded document, kept as it is, whatever its keys.  When
    decoding raises, the slot is the fallback envelope: its [error] field is
    "LLM produced invalid JSON" and its [raw] field is the generated text,
    unchanged. *)
Theorem analyze_explanation_slot
        (E : Env) (plant file : string) (r : DiagnosisResponse) (tr : list event) :
  run (analyze E plant file) = (Ok r, tr) ->
  exists llm,
    generate_llm_explanation E plant (resp_predicted_disease r) = Ok llm /\
    ((exists doc, json_loads (runtime E) llm = Ok doc /\ resp_explanation r = doc)
     \/
     (exists e, json_loads (runtime E) llm = Raise e /\
                resp_explanation r
                  = fallback_envelope "LLM produced invalid JSON" llm /\
                dict_get (resp_explanation r) "error" JNull
                  = Ok (JStr "LLM produced invalid JSON") /\
                dict_get (resp_explanation r) "raw" JNull = Ok (JStr llm))).
Proof.
  intros H. apply analyze_ok_inv in H.
  destruct H as (img & m & classes & preds & i & disease & c & llm & speech
                 & _ & _ & _ & _ & _ & _ & Hllm & _ & -> & _).
  exists llm. split; [exact Hllm|]. simpl. unfold parse_or_fallback.
  destruct (json_loads (runtime E) llm) as [doc|e].
  - left. exists doc. split; reflexivity.
  - right. exists e. repeat split.
Qed.

Lemma analyze_explanation_slot_witness :
  exists llm,
    generate_llm_explanation (examples.server examples.TREATMENT_ONLY) "Potato"
      (resp_predicted_disease examples.potato_response) = Ok llm /\
    ((exists doc,
         json_loads json_ref.runtime llm = Ok doc /\
         resp_explanation examples.potato_response = doc)
     \/
     (exists e, json_loads json_ref.runtime llm = Raise e /\
                resp_explanation examples.potato_response
                  = fallback_envelope "LLM produced invalid JSON" llm /\
                dict_get (resp_explanation examples.potato_response) "error" JNull
                  = Ok (JStr "LLM produced invalid JSON") /\
                dict_get (resp_explanation examples.potato_response) "raw" JNull
                  = Ok (JStr llm))).
Proof.
  apply (analyze_explanation_slot (examples.server examples.TREATMENT_ONLY)
           "Potato" "upload" examples.potato_response examples.potato_trace).
  vm_compute. reflexivity.
Defined.

(** The spoken summary as a function of plant, label and explanation. *)
Lemma speech_text_cases (E : Env) (plant disease : string) (explanation : json) :
  (lower disease = "healthy" ->
   speech_text E plant disease explanation
     = Ok ("The " ++ plant ++ " plant, is detected healthy.")) /\
  (lower disease <> "healthy" ->
   forall kvs, explanation = JObj kvs ->
     speech_text E plant disease explanation
       = Ok ("For " ++ plant ++ " plant, the detected disease is " ++ disease
             ++ ". " ++ "The recommended treatment is: "
             ++ format_value (runtime E) (treatment_of kvs) ++ ".")) /\
  (lower disease <> "healthy" ->
   (forall kvs, explanation <> JObj kvs) ->
   exists e, speech_text E plant disease explanation = Raise e
             /\ exn_cls e = AttributeError).
Proof.
  unfold speech_text. split; [|split].
  - intros ->. reflexivity.
  - intros Hd kvs ->. apply String.eqb_neq in Hd. rewrite Hd.
    unfold dict_get, treatment_of.
    destruct (assoc_get kvs "recommended_treatment"); reflexivity.
  - intros Hd Hno. apply String.eqb_neq in Hd. rewrite Hd.
    destruct explanation; try (eexists; split; reflexivity).
    exfalso. eapply Hno. reflexivity.
Qed.



(** C10. The [plant] field of a response of /analyze is the plant type as
    the caller wrote it, letter case included. *)
Theorem analyze_echoes_plant
        (E : Env) (plant file : string) (r : DiagnosisResponse) (tr : list event) :
  run (analyze E plant file) = (Ok r, tr) ->
  resp_plant r = plant.
Proof.
  intros H. apply analyze_ok_inv in H.
  destruct H as (img & m & classes & preds & i & disease & c & llm & speech
                 & _ & _ & _ & _ & _ & _ & _ & _ & -> & _).
  reflexivity.
Qed.

Lemma analyze_echoes_plant_witness :
  resp_plant examples.potato_response = "Potato".
Proof.
  apply (analyze_echoes_plant (examples.server examples.TREATMENT_ONLY)
           "Potato" "upload" examples.potato_response examples.potato_trace).
  vm_compute. reflexivity.
Defined.

(** ** Validation of the plant type at the four operations *)

Lemma analyze_valid_plant_predicts
      (E : Env) (plant file : string) (img : ndarray E)
      (m : model_id) (classes : list string) :
  read_file_as_image E file = Ok img ->
  vocabulary plant = Some (m, classes) ->
  nth_error (snd (run (analyze E plant file))) 1 = Some (EvPredict m).
Proof.
  intros Himg Hv.
  unfold run, analyze. unfold bind at 1. unfold call at 1. rewrite Himg.
  unfold bind at 1. rewrite vision_agent_dispatch, Hv.
  unfold classify_with, language_agent, generate_audio, bind, call, lift, ret.
  destruct (predict E m img) as [preds|e]; [|reflexivity].
  destruct (np.argmax preds) as [i|e]; [|reflexivity].
  destruct (getitem classes i) as [disease|e]; [|reflexivity].
  destruct (np.max preds) as [c|e]; [|reflexivity].
  destruct (generate_llm_explanation E plant disease) as [llm|e]; [|reflexivity].
  destruct (speech_text E plant disease (parse_or_fallback E llm));
    [|reflexivity].
  destruct (gtts_save E _ _); reflexivity.
Qed.

(** C9. The four operations that take a plant type accept it exactly when
    its lower-casing is potato, tomato or pepper.  Accepted means that the
    operation goes on to its next step (the model of the plant is run; the
    text generator is asked; the image path is checked; the backend is
    called); rejected means that it stops there with its invalid-plant-type
    error.  For /analyze this is for an upload that decodes. *)
Theorem plant_validation_ignores_case (plant : string) :
  (valid_plant plant = true <->
   lower plant = "potato" \/ lower plant = "tomato" \/ lower plant = "pepper") /\
  (forall (E : Env) (file : string) (img : ndarray E),
     read_file_as_image E file = Ok img ->
     if valid_plant plant
     then exists m classes,
            vocabulary plant = Some (m, classes) /\
            nth_error (snd (run (analyze E plant file))) 1 = Some (EvPredict m)
     else run (analyze E plant file) = (Raise INVALID_PLANT, [EvImageDecode])) /\
  (forall E : Env,
     if valid_plant plant
     then snd (run (fastapi_server.plant_info E plant)) = [EvInfo plant]
     else run (fastapi_server.plant_info E plant) = (Raise INVALID_PLANT, [])) /\
  (forall (T : mcp_server.Env) (image_path : string),
     if valid_plant plant
     then nth_error (snd (run (mcp_server.analyze_plant T plant image_path))) 0
          = Some (EvExists image_path)
     else run (mcp_server.analyze_plant T plant image_path)
          = (Ok (mcp_server.error_envelope "Invalid plant type"
                   [("details",
                     JStr "Plant must be one of: potato, tomato, pepper")]),
             [])) /\
  (forall T : mcp_server.Env,
     if valid_plant plant
     then snd (run (mcp_server.plant_info T plant))
          = [EvGet (mcp_server.FASTAPI_URL ++ "/plant_info/" ++ lower plant)]
     else run (mcp_server.plant_info T plant)
          = (Ok (mcp_server.error_envelope "Invalid plant type"
                   [("supported_plants",
                     JArr [JStr "potato"; JStr "tomato"; JStr "pepper"])]),
             [])).
Proof.
  split; [apply valid_plant_iff|].
  split; [|split; [|split]].
  - intros E file img Himg.
    destruct (valid_plant plant) eqn:Hvalid.
    + rewrite vocabulary_valid_plant in Hvalid.
      destruct (vocabulary plant) as [[m classes]|] eqn:Hv; [|discriminate].
      exists m, classes. split; [reflexivity|].
      eapply analyze_valid_plant_predicts; eassumption.
    + rewrite (analyze_rejects E plant file Hvalid), Himg. reflexivity.
  - intros E. unfold fastapi_server.plant_info. fold (valid_plant plant).
    destruct (valid_plant plant); [|reflexivity].
    unfold run, bind, call, ret.
    destruct (generate_llm_info E plant); reflexivity.
  - intros T image_path. unfold mcp_server.analyze_plant.
    change (str_in (lower plant) mcp_server.valid_plants) with (valid_plant plant).
    destruct (valid_plant plant); [|reflexivity].
    unfold negb, run. unfold bind at 1. unfold call at 1.
    destruct (mcp_server.path_exists T image_path) as [[|]|e];
      [|reflexivity|reflexivity].
    unfold try_except, bind, call, lift, ret.
    destruct (mcp_server.open_rb T image_path) as [f|e].
    + destruct (mcp_server.requests_post T _ _ _ _) as [resp|e].
      * destruct (mcp_server.status_code resp =? 200)%Z; [|reflexivity].
        simpl. destruct (mcp_server.resp_json T resp) as [v|e]; [reflexivity|].
        destruct (isinstance_Timeout e); [reflexivity|].
        destruct (isinstance_ConnectionError e); reflexivity.
      * destruct (isinstance_Timeout e); [reflexivity|].
        destruct (isinstance_ConnectionError e); reflexivity.
    + destruct (isinstance_Timeout e); [reflexivity|].
      destruct (isinstance_ConnectionError e); reflexivity.
  - intros T. unfold mcp_server.plant_info.
    change (str_in (lower plant) mcp_server.valid_plants) with (valid_plant plant).
    destruct (valid_plant plant); [|reflexivity].
    unfold negb, run, try_except, bind, call, lift, ret.
    destruct (mcp_server.requests_get T _ _) as [resp|e].
    + destruct (mcp_server.status_code resp =? 404)%Z; [reflexivity|].
      destruct (mcp_server.status_code resp =? 200)%Z; [|reflexivity].
      simpl. destruct (mcp_server.resp_json T resp) as [v|e]; [reflexivity|].
      destruct (isinstance_ConnectionError e); reflexivity.
    + destruct (isinstance_ConnectionError e); reflexivity.
Qed.

(** [TOMATO] and [Potato] are accepted, [banana] is not. *)
Lemma plant_validation_ignores_case_witness :
  valid_plant "Potato" = true /\
  (exists m classes,
     vocabulary "TOMATO" = Some (m, classes) /\
     nth_error (snd (run (analyze (examples.server "{}") "TOMATO" "upload"))) 1
     = Some (EvPredict m)) /\
  run (analyze (examples.server "{}") "banana" "upload")
    = (Raise INVALID_PLANT, [EvImageDecode]).
Proof.
  split; [|split].
  - apply (proj1 (plant_validation_ignores_case "Potato")).
    left. reflexivity.
  - exact (proj1 (proj2 (plant_validation_ignores_case "TOMATO"))
             (examples.server "{}") "upload" tt eq_refl).
  - exact (proj1 (proj2 (plant_validation_ignores_case "banana"))
             (examples.server "{}") "upload" tt eq_refl).
Defined.

(** ** The tools *)

(** The existence check of the image path is made before the [try]
    block: when it raises, the exception leaves the tool. *)
Lemma analyze_plant_stat_raises
      (T : mcp_server.Env) (plant image_path : string) (e : exn) :
  valid_plant plant = true ->
  mcp_server.path_exists T image_path = Raise e ->
  run (mcp_server.analyze_plant T plant image_path)
  = (Raise e, [EvExists image_path]).
Proof.
  intros Hvalid Hex. unfold mcp_server.analyze_plant.
  change (str_in (lower plant) mcp_server.valid_plants) with (valid_plant plant).
  rewrite Hvalid. unfold negb, run. unfold bind at 1. unfold call at 1.
  rewrite Hex. reflexivity.
Qed.

(** C4, as the specification states it, fails: when the backend answers
    200 with a body that is no JSON, [analyze_plant] returns an envelope of
    kind "Unexpected error", which is none of the five listed kinds, and
    there is no backend payload. *)
Lemma analyze_plant_unexpected_error :
  (exists details,
     run (mcp_server.analyze_plant
            (examples.host (examples.reply 200 "oops")) "potato" "leaf.jpg")
     = (Ok (mcp_server.error_envelope "Unexpected error"
              [("details", JStr details)]),
        [EvExists "leaf.jpg"; EvOpen "leaf.jpg";
         EvPost "http://localhost:8000/analyze" "potato"])) /\
  ~ In "Unexpected error" LISTED_KINDS /\
  ~ (exists payload,
       backend_payload (examples.host (examples.reply 200 "oops"))
         "potato" "leaf.jpg" payload).
Proof.
  split; [eexists; vm_compute; reflexivity|]. split.
  - simpl. intros H. repeat (destruct H as [H|H]; [discriminate|]). exact H.
  - intros (payload & f & resp & _ & Hpost & _ & Hjson).
    injection Hpost as <-. vm_compute in Hjson. discriminate.
Qed.

(** C4, amended. Whenever the existence check of the image path answers,
    [analyze_plant] returns: no exception leaves it.  What it returns is the document decoded from a 200 answer of the
    backend, or an error envelope whose kind is one of six: the five listed
    ones and "Unexpected error", which stands for every failure that is
    neither a timeout nor a connection error (the file cannot be opened,
    the 200 body is no JSON).  "FastAPI error" is returned for every status
    other than 200.  On an invalid plant type nothing external is called. *)
Theorem analyze_plant_total (T : mcp_server.Env) (plant image_path : string) :
  (valid_plant plant = true ->
   exists found, mcp_server.path_exists T image_path = Ok found) ->
  exists v tr,
    run (mcp_server.analyze_plant T plant image_path) = (Ok v, tr) /\
    analyze_plant_outcome T plant image_path v /\
    (backend_payload T plant image_path v \/
     exists kind more,
       v = mcp_server.error_envelope kind more /\ In kind TOOL_KINDS) /\
    (valid_plant plant = false -> tr = []).
Proof.
  intros Hstat.
  assert (Hgoal :
    exists v tr,
      run (mcp_server.analyze_plant T plant image_path) = (Ok v, tr) /\
      analyze_plant_outcome T plant image_path v /\
      (valid_plant plant = false -> tr = [])).
  { unfold mcp_server.analyze_plant.
    change (str_in (lower plant) mcp_server.valid_plants) with (valid_plant plant).
    destruct (valid_plant plant) eqn:Hvalid.
    2:{ eexists. eexists. split; [reflexivity|].
        split; [apply out_invalid_plant; exact Hvalid|reflexivity]. }
    unfold negb, run. unfold bind at 1. unfold call at 1.
    destruct (Hstat eq_refl) as [found Hex]. rewrite Hex.
    destruct found.
    2:{ eexists. eexists. split; [reflexivity|].
        split; [apply out_file_not_found; assumption|discriminate]. }
    unfold try_except, bind, call, lift, ret.
    assert (Hraise : forall e,
      attempt_raised T plant image_path e ->
      analyze_plant_outcome T plant image_path
        (if isinstance_Timeout e
         then mcp_server.error_envelope "Request timed out"
                [("details",
                  JStr "FastAPI server did not respond within 30 seconds")]
         else
           if isinstance_ConnectionError e
           then mcp_server.error_envelope "Connection failed"
                  [("details",
                    JStr ("Could not connect to FastAPI server at "
                          ++ mcp_server.FASTAPI_URL))]
           else mcp_server.error_envelope "Unexpected error"
                  [("details", JStr (exn_msg e))])).
    { intros e Hatt.
      destruct (isinstance_Timeout e) eqn:Ht;
        [|destruct (isinstance_ConnectionError e) eqn:Hc].
      - eapply out_timeout; eassumption.
      - eapply out_connection; eassumption.
      - eapply out_unexpected; eassumption. }
    destruct (mcp_server.open_rb T image_path) as [f|e] eqn:Hopen.
    - change (mcp_server.requests_post T _ _ _ _)
        with (post_analyze T plant image_path f).
      destruct (post_analyze T plant image_path f) as [resp|e] eqn:Hpost.
      + destruct (mcp_server.status_code resp =? 200)%Z eqn:Hcode.
        * apply Z.eqb_eq in Hcode. unfold negb.
          destruct (mcp_server.resp_json T resp) as [v|e] eqn:Hjson.
          -- eexists. eexists. split; [reflexivity|]. split; [|discriminate].
             apply out_payload; try assumption.
             exists f, resp. repeat split; assumption.
          -- assert (Hatt : attempt_raised T plant image_path e).
             { right. right. exists f, resp. repeat split; assumption. }
             raised_branch Hraise e Hatt.
        * apply Z.eqb_neq in Hcode. unfold negb.
          eexists. eexists. split; [reflexivity|]. split; [|discriminate].
          apply out_fastapi_error; try assumption.
          exists f. repeat split; assumption.
      + assert (Hatt : attempt_raised T plant image_path e).
        { right. left. exists f. split; assumption. }
        raised_branch Hraise e Hatt.
    - assert (Hatt : attempt_raised T plant image_path e).
      { left. exact Hopen. }
      raised_branch Hraise e Hatt. }
  destruct Hgoal as (v & tr & Hrun & Hout & Htr).
  exists v, tr. split; [exact Hrun|]. split; [exact Hout|]. split; [|exact Htr].
  unfold TOOL_KINDS, LISTED_KINDS.
  destruct Hout;
    try (right; eexists; eexists; split; [reflexivity|]; simpl; tauto).
  left. assumption.
Qed.

(** A run of the tool against a backend that answers 200 with the empty
    document: the document is what the tool returns. *)
Lemma analyze_plant_total_witness :
  exists v tr,
    run (mcp_server.analyze_plant
           (examples.host (examples.reply 200 "{}")) "Potato" "leaf.jpg")
      = (Ok v, tr) /\
    analyze_plant_outcome
      (examples.host (examples.reply 200 "{}")) "Potato" "leaf.jpg" v /\
    (backend_payload
       (examples.host (examples.reply 200 "{}")) "Potato" "leaf.jpg" v \/
     exists kind more,
       v = mcp_server.error_envelope kind more /\ In kind TOOL_KINDS) /\
    (valid_plant "Potato" = false -> tr = []).
Proof.
  apply (analyze_plant_total (examples.host (examples.reply 200 "{}"))
           "Potato" "leaf.jpg").
  intros _. exists true. reflexivity.
Defined.

Example analyze_plant_run :
  run (mcp_server.analyze_plant
         (examples.host (examples.reply 200 "{}")) "Potato" "leaf.jpg")
  = (Ok (JObj []),
     [EvExists "leaf.jpg"; EvOpen "leaf.jpg";
      EvPost "http://localhost:8000/analyze" "potato"]) /\
  run (mcp_server.analyze_plant
         (examples.host (examples.reply 200 "{}")) "banana" "leaf.jpg")
  = (Ok (mcp_server.error_envelope "Invalid plant type"
           [("details", JStr "Plant must be one of: potato, tomato, pepper")]),
     []).
Proof. split; vm_compute; reflexivity. Qed.

(** C8, as the specification states it, fails: a backend that answers 500
    gives a result whose status is "unhealthy", with a status code, which
    is neither of the two listed shapes. *)
Lemma health_check_unhealthy :
  run (mcp_server.health_check
         (examples.host (examples.reply 500 "Internal Server Error")))
  = (Ok (JObj [("status", JStr "unhealthy"); ("status_code", JInt 500);
               ("details", JStr "Internal Server Error")]),
     [EvGet "http://localhost:8000/health"]) /\
  ~ listed_health_shape
      (JObj [("status", JStr "unhealthy"); ("status_code", JInt 500);
             ("details", JStr "Internal Server Error")]).
Proof.
  split; [vm_compute; reflexivity|].
  intros [(status & url & response & H)|(status & details & _ & H)];
    discriminate.
Qed.

(** C8, amended. [health_check] always returns, after one GET of /health,
    a dict of one of three shapes: status "healthy" with backend_url and
    response on a 200 answer; status "unhealthy" with status_code and
    details on any other answer; status "unreachable" (a connection error)
    or "error" (any other exception) with details when the request or the
    decoding of the body raises. *)
Theorem health_check_shapes (T : mcp_server.Env) :
  exists v,
    run (mcp_server.health_check T)
      = (Ok v, [EvGet (mcp_server.FASTAPI_URL ++ "/health")]) /\
    health_check_outcome T v /\
    health_shape v.
Proof.
  assert (Hrun : exists v,
    run (mcp_server.health_check T)
      = (Ok v, [EvGet (mcp_server.FASTAPI_URL ++ "/health")]) /\
    health_check_outcome T v).
  { unfold mcp_server.health_check, run, try_except, bind, call, lift, ret.
    change (mcp_server.requests_get T _ _) with (get_health T).
    assert (Hraise : forall e : exn,
      probe_raised T e ->
      health_check_outcome T
        (if isinstance_ConnectionError e
         then JObj [("status", JStr "unreachable");
                    ("details",
                     JStr ("Cannot connect to FastAPI server at "
                           ++ mcp_server.FASTAPI_URL))]
         else JObj [("status", JStr "error"); ("details", JStr (exn_msg e))])).
    { intros e Hp. destruct (isinstance_ConnectionError e) eqn:Hc.
      - eapply out_unreachable; eassumption.
      - eapply out_error; eassumption. }
    destruct (get_health T) as [resp|e] eqn:Hget.
    - destruct (mcp_server.status_code resp =? 200)%Z eqn:Hcode.
      + apply Z.eqb_eq in Hcode.
        unfold mcp_server.content_type_is.
        destruct (mcp_server.content_type resp) as [ct|] eqn:Hct.
        * destruct (ct =? "application/json") eqn:Hjson.
          -- apply String.eqb_eq in Hjson. subst ct.
             destruct (mcp_server.resp_json T resp) as [body|e] eqn:Hbody.
             ++ eexists. split; [reflexivity|].
                eapply out_healthy_json; eassumption.
             ++ assert (Hp : probe_raised T e).
                { right. exists resp. repeat split; assumption. }
                specialize (Hraise e Hp).
                destruct (isinstance_ConnectionError e);
                  (eexists; split; [reflexivity|exact Hraise]).
          -- apply String.eqb_neq in Hjson.
             eexists. split; [reflexivity|].
             eapply out_healthy_text; try eassumption.
             rewrite Hct. congruence.
        * eexists. split; [reflexivity|].
          eapply out_healthy_text; try eassumption.
          rewrite Hct. discriminate.
      + apply Z.eqb_neq in Hcode.
        eexists. split; [reflexivity|].
        eapply out_unhealthy; eassumption.
    - assert (Hp : probe_raised T e) by (left; exact Hget).
      specialize (Hraise e Hp).
      destruct (isinstance_ConnectionError e);
        (eexists; split; [reflexivity|exact Hraise]). }
  destruct Hrun as (v & Hrun & Hout).
  exists v. split; [exact Hrun|]. split; [exact Hout|].
  destruct Hout.
  - left. eexists. reflexivity.
  - left. eexists. reflexivity.
  - right. left. eexists. eexists. split; [eassumption|reflexivity].
  - right. right. eexists. eexists. split; [left; reflexivity|reflexivity].
  - right. right. eexists. eexists. split; [right; reflexivity|reflexivity].
Qed.

(* ===================================================================== *)
(** * Further properties of the two servers *)
(* ===================================================================== *)

Import mcp_audio.

(** ** Strings *)

Lemma sapp_assoc (a b c : string) : (a ++ b) ++ c = a ++ (b ++ c).
Proof. induction a as [|x a IH]; simpl; [reflexivity|]. rewrite IH. reflexivity. Qed.

Lemma sapp_nil_r (a : string) : a ++ EmptyString = a.
Proof. induction a as [|x a IH]; simpl; [reflexivity|]. rewrite IH. reflexivity. Qed.

Lemma length_sapp (a b : string) :
  String.length (a ++ b) = String.length a + String.length b.
Proof. induction a as [|x a IH]; simpl; [reflexivity|]. rewrite IH. reflexivity. Qed.

Lemma rev_string_onto_app (s acc : string) :
  rev_string_onto s acc = rev_string s ++ acc.
Proof.
  unfold rev_string. revert acc.
  induction s as [|c r IH]; intros acc; simpl; [reflexivity|].
  rewrite (IH (String c acc)), (IH (String c EmptyString)), sapp_assoc.
  reflexivity.
Qed.

Lemma rev_string_cons (c : ascii) (r : string) :
  rev_string (String c r) = rev_string r ++ String c EmptyString.
Proof. unfold rev_string at 1. simpl. apply rev_string_onto_app. Qed.

Lemma rev_string_app (a b : string) :
  rev_string (a ++ b) = rev_string b ++ rev_string a.
Proof.
  induction a as [|c a IH]; simpl.
  - rewrite sapp_nil_r. reflexivity.
  - rewrite !rev_string_cons, IH, sapp_assoc. reflexivity.
Qed.

Lemma rev_string_involutive (s : string) : rev_string (rev_string s) = s.
Proof.
  induction s as [|c r IH]; [reflexivity|].
  rewrite rev_string_cons, rev_string_app, IH. reflexivity.
Qed.

Lemma has_char_app (p : ascii -> bool) (a b : string) :
  has_char p (a ++ b) = has_char p a || has_char p b.
Proof.
  induction a as [|c a IH]; simpl; [reflexivity|].
  rewrite IH, orb_assoc. reflexivity.
Qed.

Lemma has_char_rev (p : ascii -> bool) (s : string) :
  has_char p (rev_string s) = has_char p s.
Proof.
  induction s as [|c r IH]; [reflexivity|].
  rewrite rev_string_cons, has_char_app, IH. simpl.
  rewrite orb_false_r, orb_comm. reflexivity.
Qed.


(** ** Characters *)

Lemma is_chr_eq (n : nat) (c : ascii) :
  (n < 256)%nat -> is_chr n c = true -> c = ascii_of_nat n.
Proof.
  unfold is_chr. intros Hn H. apply Nat.eqb_eq in H.
  rewrite <- H. symmetry. apply ascii_nat_embedding.
Qed.

Lemma is_backtick_eq (c : ascii) : is_backtick c = true -> c = "`"%char.
Proof. intros H. apply (is_chr_eq 96) in H; [exact H|lia]. Qed.

Lemma is_lbrace_eq (c : ascii) : is_lbrace c = true -> c = "{"%char.
Proof. intros H. apply (is_chr_eq 123) in H; [exact H|lia]. Qed.

Lemma is_rbrace_eq (c : ascii) : is_rbrace c = true -> c = "}"%char.
Proof. intros H. apply (is_chr_eq 125) in H; [exact H|lia]. Qed.

(** ** Fences *)

Lemma strip_fence_sound (s r : string) :
  strip_fence s = Some r -> s = FENCE ++ r.
Proof.
  destruct s as [|a [|b [|c t]]]; simpl; try discriminate.
  destruct (is_backtick a) eqn:Ha; [|discriminate].
  destruct (is_backtick b) eqn:Hb; [|discriminate].
  destruct (is_backtick c) eqn:Hc; [|discriminate].
  simpl. intros H. injection H as <-.
  rewrite (is_backtick_eq a Ha), (is_backtick_eq b Hb), (is_backtick_eq c Hc).
  reflexivity.
Qed.

Lemma find_fence_eq (a : ascii) (t : string) :
  find_fence (String a t) =
  match strip_fence (String a t) with
  | Some r => Some (EmptyString, r)
  | None => match find_fence t with
            | Some (pre, post) => Some (String a pre, post)
            | None => None
            end
  end.
Proof.
  destruct t as [|b [|c r]]; try reflexivity.
  simpl. destruct (is_backtick a && is_backtick b && is_backtick c); reflexivity.
Qed.

Lemma remove_fences_eq (a : ascii) (t : string) :
  remove_fences (String a t) =
  match strip_fence (String a t) with
  | Some r => remove_fences r
  | None => String a (remove_fences t)
  end.
Proof.
  destruct t as [|b [|c r]]; try reflexivity.
  simpl. destruct (is_backtick a && is_backtick b && is_backtick c); reflexivity.
Qed.

Lemma find_fence_sound (s pre post : string) :
  find_fence s = Some (pre, post) -> s = pre ++ FENCE ++ post.
Proof.
  revert pre post. induction s as [|a t IH]; intros pre post H.
  - discriminate.
  - rewrite find_fence_eq in H.
    destruct (strip_fence (String a t)) as [r|] eqn:Hs.
    + injection H as <- <-. apply strip_fence_sound in Hs. exact Hs.
    + destruct (find_fence t) as [[pre0 post0]|]; [|discriminate].
      injection H as <- <-. simpl. rewrite (IH pre0 post0 eq_refl). reflexivity.
Qed.

Lemma find_fence_complete (pre post : string) :
  find_fence (pre ++ FENCE ++ post) <> None.
Proof.
  induction pre as [|a pre IH].
  - discriminate.
  - change (String a pre ++ FENCE ++ post) with (String a (pre ++ FENCE ++ post)).
    rewrite find_fence_eq.
    destruct (strip_fence _); [discriminate|].
    destruct (find_fence (pre ++ FENCE ++ post)) as [[p q]|]; [discriminate|].
    congruence.
Qed.

Lemma find_fence_none_iff (s : string) :
  find_fence s = None <-> ~ has_fence s.
Proof.
  split.
  - intros H (pre & post & ->). exact (find_fence_complete pre post H).
  - intros H. destruct (find_fence s) as [[pre post]|] eqn:Hf; [|reflexivity].
    exfalso. apply H. exists pre, post. apply find_fence_sound. exact Hf.
Qed.

Lemma has_fence_has_backtick (s : string) :
  has_fence s -> has_char is_backtick s = true.
Proof.
  intros (pre & post & ->). rewrite !has_char_app. simpl. apply orb_true_r.
Qed.

Lemma has_fence_app_l (a b : string) : has_fence a -> has_fence (a ++ b).
Proof.
  intros (pre & post & ->). exists pre, (post ++ b).
  rewrite !sapp_assoc. reflexivity.
Qed.

Lemma has_fence_app_r (a b : string) : has_fence b -> has_fence (a ++ b).
Proof.
  intros (pre & post & ->). exists (a ++ pre), post.
  rewrite !sapp_assoc. reflexivity.
Qed.

(** The first fence of a text whose beginning has no backtick. *)
Lemma find_fence_first (x r : string) :
  has_char is_backtick x = false ->
  find_fence (x ++ FENCE ++ r) = Some (x, r).
Proof.
  induction x as [|a x IH]; intros Hx.
  - reflexivity.
  - simpl in Hx. apply orb_false_iff in Hx. destruct Hx as [Ha Hx].
    change (String a x ++ FENCE ++ r) with (String a (x ++ FENCE ++ r)).
    rewrite find_fence_eq.
    assert (Hs : strip_fence (String a (x ++ FENCE ++ r)) = None).
    { destruct (x ++ FENCE ++ r) as [|b [|c t]]; try reflexivity.
      simpl. rewrite Ha. reflexivity. }
    rewrite Hs, (IH Hx). reflexivity.
Qed.

Lemma remove_fences_id (s : string) :
  ~ has_fence s -> remove_fences s = s.
Proof.
  induction s as [|a t IH]; intros H; [reflexivity|].
  rewrite remove_fences_eq.
  destruct (strip_fence (String a t)) as [r|] eqn:Hs.
  - exfalso. apply H. exists EmptyString, r. apply strip_fence_sound. exact Hs.
  - rewrite IH; [reflexivity|].
    intros Hf. apply H. apply (has_fence_app_r (String a EmptyString) t Hf).
Qed.

Lemma sub_fenced_id (fuel : nat) (s : string) :
  ~ has_fence s -> sub_fenced fuel s = s.
Proof.
  intros H. apply find_fence_none_iff in H.
  destruct fuel; simpl; [reflexivity|]. rewrite H. reflexivity.
Qed.

(** A text that does not open with a fence, as seen from its first
    character and from what follows. *)
Lemma strip_fence_none_cons (a : ascii) (t : string) :
  strip_fence (String a t) = None <->
  is_backtick a = false \/ starts_two_backticks t = false.
Proof.
  destruct t as [|b [|c r]]; simpl.
  - split; auto.
  - split; auto.
  - destruct (is_backtick a), (is_backtick b), (is_backtick c); simpl;
      intuition congruence.
Qed.

Lemma starts_two_remove_fences (t : string) :
  starts_two_backticks t = false ->
  starts_two_backticks (remove_fences t) = false.
Proof.
  intros H. destruct t as [|x t']; [reflexivity|].
  assert (Hs : strip_fence (String x t') = None).
  { destruct t' as [|y [|z r]]; try reflexivity.
    simpl in *. rewrite H. reflexivity. }
  rewrite remove_fences_eq, Hs.
  destruct (is_backtick x) eqn:Hx.
  2:{ simpl. destruct (remove_fences t'); [reflexivity|]. rewrite Hx. reflexivity. }
  destruct t' as [|y t2]; [reflexivity|].
  simpl in H. rewrite Hx in H. simpl in H.
  assert (Hs' : strip_fence (String y t2) = None).
  { apply strip_fence_none_cons. left. exact H. }
  rewrite remove_fences_eq, Hs'. simpl. rewrite Hx, H. reflexivity.
Qed.

Lemma strip_fence_length (s r : string) :
  strip_fence s = Some r -> String.length s = 3 + String.length r.
Proof. intros H. apply strip_fence_sound in H. subst. reflexivity. Qed.

(** After [str.replace] no run of three backticks is left. *)
Lemma remove_fences_no_fence (s : string) : find_fence (remove_fences s) = None.
Proof.
  remember (String.length s) as n eqn:Hn.
  revert s Hn. induction n as [n IH] using lt_wf_ind. intros s Hn.
  destruct s as [|a t]; [reflexivity|].
  rewrite remove_fences_eq.
  destruct (strip_fence (String a t)) as [r|] eqn:Hs.
  - apply strip_fence_length in Hs. apply (IH (String.length r)); [lia|reflexivity].
  - rewrite find_fence_eq.
    assert (HR : find_fence (remove_fences t) = None).
    { apply (IH (String.length t)); [simpl in Hn; lia|reflexivity]. }
    rewrite HR.
    assert (Hno : strip_fence (String a (remove_fences t)) = None).
    { apply strip_fence_none_cons. apply strip_fence_none_cons in Hs.
      destruct Hs as [Ha|H2]; [left; exact Ha|right].
      apply starts_two_remove_fences. exact H2. }
    rewrite Hno. reflexivity.
Qed.

(** ** White space *)

Ltac peel x n tac :=
  lazymatch n with
  | O => tac
  | S ?m => destruct x as [|x]; [tac | peel x m tac]
  end.

Lemma ws2_bytes (x y : nat) :
  ws2 x y = true -> 128 <= x /\ 128 <= y.
Proof.
  unfold ws2. rewrite andb_true_iff, orb_true_iff, !Nat.eqb_eq.
  intros [-> [->| ->]]; split; apply Nat.leb_le; reflexivity.
Qed.

Lemma ws3_bytes (x y z : nat) :
  ws3 x y z = true -> 128 <= x /\ 128 <= y /\ 128 <= z.
Proof.
  intros H.
  let n := eval compute in 228 in
  peel x n ltac:(try (cbv [ws3] in H; discriminate H)).
  all: let n := eval compute in 155 in
       peel y n ltac:(try (cbv [ws3] in H; discriminate H)).
  all: cbv [ws3] in H;
       repeat rewrite ?orb_true_iff, ?andb_true_iff, ?Nat.eqb_eq, ?Nat.leb_le in H;
       (split; [apply Nat.leb_le; reflexivity|]);
       (split; [apply Nat.leb_le; reflexivity|]);
       intuition (subst; try (apply Nat.leb_le; reflexivity); try assumption).
Qed.

Lemma ascii_ws_byte (c : ascii) : is_ascii_ws c = true -> not_ws_byte c = false.
Proof. unfold not_ws_byte, is_ws_byte. intros ->. reflexivity. Qed.

Lemma high_byte (c : ascii) : 128 <= nat_of_ascii c -> not_ws_byte c = false.
Proof.
  unfold not_ws_byte, is_ws_byte. intros H. apply Nat.leb_le in H.
  rewrite H, orb_true_r. reflexivity.
Qed.

(** What [lstrip_ws] removes is white space. *)
Lemma lstrip_ws_decomp (s : string) :
  exists w, s = w ++ lstrip_ws s /\ has_char not_ws_byte w = false.
Proof.
  remember (String.length s) as n eqn:Hn.
  revert s Hn. induction n as [n IH] using lt_wf_ind. intros s Hn.
  assert (Hstop : exists w, s = w ++ s /\ has_char not_ws_byte w = false)
    by (exists EmptyString; split; reflexivity).
  destruct s as [|a r]; [exact Hstop|]. simpl lstrip_ws.
  destruct (is_ascii_ws a) eqn:Ha.
  { destruct (IH (String.length r)) with (s := r) as (w & Hw & Hc);
      [simpl in Hn; lia|reflexivity|].
    exists (String a w). split; [simpl; rewrite <- Hw; reflexivity|].
    simpl. rewrite (ascii_ws_byte a Ha), Hc. reflexivity. }
  destruct r as [|b r2]; [exact Hstop|].
  destruct (ws2 (nat_of_ascii a) (nat_of_ascii b)) eqn:H2.
  { destruct (IH (String.length r2)) with (s := r2) as (w & Hw & Hc);
      [simpl in Hn; lia|reflexivity|].
    apply ws2_bytes in H2. destruct H2 as [Hx Hy].
    exists (String a (String b w)). split; [simpl; rewrite <- Hw; reflexivity|].
    simpl. rewrite (high_byte a Hx), (high_byte b Hy), Hc. reflexivity. }
  destruct r2 as [|c r3]; [exact Hstop|].
  destruct (ws3 (nat_of_ascii a) (nat_of_ascii b) (nat_of_ascii c)) eqn:H3;
    [|exact Hstop].
  destruct (IH (String.length r3)) with (s := r3) as (w & Hw & Hc);
    [simpl in Hn; lia|reflexivity|].
  apply ws3_bytes in H3. destruct H3 as (Hx & Hy & Hz).
  exists (String a (String b (String c w))).
  split; [simpl; rewrite <- Hw; reflexivity|].
  simpl. rewrite (high_byte a Hx), (high_byte b Hy), (high_byte c Hz), Hc.
  reflexivity.
Qed.

Lemma lstrip_ws_rev_decomp (s : string) :
  exists w, s = w ++ lstrip_ws_rev s /\ has_char not_ws_byte w = false.
Proof.
  remember (String.length s) as n eqn:Hn.
  revert s Hn. induction n as [n IH] using lt_wf_ind. intros s Hn.
  assert (Hstop : exists w, s = w ++ s /\ has_char not_ws_byte w = false)
    by (exists EmptyString; split; reflexivity).
  destruct s as [|a r]; [exact Hstop|]. simpl lstrip_ws_rev.
  destruct (is_ascii_ws a) eqn:Ha.
  { destruct (IH (String.length r)) with (s := r) as (w & Hw & Hc);
      [simpl in Hn; lia|reflexivity|].
    exists (String a w). split; [simpl; rewrite <- Hw; reflexivity|].
    simpl. rewrite (ascii_ws_byte a Ha), Hc. reflexivity. }
  destruct r as [|b r2]; [exact Hstop|].
  destruct (ws2 (nat_of_ascii b) (nat_of_ascii a)) eqn:H2.
  { destruct (IH (String.length r2)) with (s := r2) as (w & Hw & Hc);
      [simpl in Hn; lia|reflexivity|].
    apply ws2_bytes in H2. destruct H2 as [Hy Hx].
    exists (String a (String b w)). split; [simpl; rewrite <- Hw; reflexivity|].
    simpl. rewrite (high_byte a Hx), (high_byte b Hy), Hc. reflexivity. }
  destruct r2 as [|c r3]; [exact Hstop|].
  destruct (ws3 (nat_of_ascii c) (nat_of_ascii b) (nat_of_ascii a)) eqn:H3;
    [|exact Hstop].
  destruct (IH (String.length r3)) with (s := r3) as (w & Hw & Hc);
    [simpl in Hn; lia|reflexivity|].
  apply ws3_bytes in H3. destruct H3 as (Hz & Hy & Hx).
  exists (String a (String b (String c w))).
  split; [simpl; rewrite <- Hw; reflexivity|].
  simpl. rewrite (high_byte a Hx), (high_byte b Hy), (high_byte c Hz), Hc.
  reflexivity.
Qed.

(** [strip] returns a middle part of its argument; what it leaves out on
    both sides is white space. *)
Lemma strip_decomp (s : string) :
  exists w w',
    s = w ++ strip s ++ w' /\
    has_char not_ws_byte w = false /\ has_char not_ws_byte w' = false.
Proof.
  destruct (lstrip_ws_decomp s) as (w & Hw & Hc).
  destruct (lstrip_ws_rev_decomp (rev_string (lstrip_ws s))) as (v & Hv & Hd).
  exists w, (rev_string v). split; [|split].
  - unfold strip. rewrite <- rev_string_app, <- Hv, rev_string_involutive.
    exact Hw.
  - exact Hc.
  - rewrite has_char_rev. exact Hd.
Qed.

Lemma ws_byte_not (n : nat) (c : ascii) :
  (32 < n < 128) -> not_ws_byte c = false -> is_chr n c = false.
Proof.
  unfold not_ws_byte, is_ws_byte, is_ascii_ws, is_chr. intros Hn H.
  apply negb_false_iff in H. apply Nat.eqb_neq. intros He.
  repeat rewrite ?orb_true_iff, ?andb_true_iff, ?Nat.leb_le in H. lia.
Qed.

Lemma ws_text_lacks (n : nat) (w : string) :
  (32 < n < 128) -> has_char not_ws_byte w = false -> has_char (is_chr n) w = false.
Proof.
  intros Hn. induction w as [|c w IH]; simpl; [reflexivity|].
  intros H. apply orb_false_iff in H. destruct H as [Hc Hw].
  rewrite (ws_byte_not n c Hn Hc), (IH Hw). reflexivity.
Qed.

(** ** The brace search *)

Lemma from_first_lbrace_skip (w t : string) :
  has_char is_lbrace w = false ->
  from_first_lbrace (w ++ t) = from_first_lbrace t.
Proof.
  induction w as [|c w IH]; simpl; [reflexivity|].
  intros H. apply orb_false_iff in H. destruct H as [Hc Hw].
  rewrite Hc. apply IH. exact Hw.
Qed.

Lemma from_first_lbrace_none (w : string) :
  has_char is_lbrace w = false -> from_first_lbrace w = None.
Proof.
  intros H. rewrite <- (sapp_nil_r w). rewrite from_first_lbrace_skip by exact H.
  reflexivity.
Qed.

Lemma from_first_lbrace_app (t w : string) :
  has_char is_lbrace w = false ->
  from_first_lbrace (t ++ w) =
  match from_first_lbrace t with
  | Some u => Some (u ++ w)
  | None => None
  end.
Proof.
  intros Hw. induction t as [|c t IH]; simpl.
  - apply from_first_lbrace_none. exact Hw.
  - destruct (is_lbrace c); [reflexivity|exact IH].
Qed.

Lemma upto_last_rbrace_none (w : string) :
  has_char is_rbrace w = false -> upto_last_rbrace w = None.
Proof.
  induction w as [|c w IH]; simpl; [reflexivity|].
  intros H. apply orb_false_iff in H. destruct H as [Hc Hw].
  rewrite (IH Hw), Hc. reflexivity.
Qed.

Lemma upto_last_rbrace_app (u w : string) :
  has_char is_rbrace w = false ->
  upto_last_rbrace (u ++ w) = upto_last_rbrace u.
Proof.
  intros Hw. induction u as [|c u IH]; simpl.
  - apply upto_last_rbrace_none. exact Hw.
  - rewrite IH. reflexivity.
Qed.

Lemma search_braces_pad (w t w' : string) :
  has_char is_lbrace w = false ->
  has_char is_lbrace w' = false -> has_char is_rbrace w' = false ->
  search_braces (w ++ t ++ w') = search_braces t.
Proof.
  intros Hw Hl Hr. unfold search_braces.
  rewrite (from_first_lbrace_skip w _ Hw), (from_first_lbrace_app t w' Hl).
  destruct (from_first_lbrace t) as [u|]; [|reflexivity].
  apply upto_last_rbrace_app. exact Hr.
Qed.

(** White space around a text does not change what the brace search
    finds in it. *)
Lemma search_braces_strip (s : string) :
  search_braces (strip s) = search_braces s.
Proof.
  destruct (strip_decomp s) as (w & w' & Hs & Hw & Hw').
  rewrite Hs at 2. symmetry. apply search_braces_pad.
  - apply (ws_text_lacks 123); [lia|exact Hw].
  - apply (ws_text_lacks 123); [lia|exact Hw'].
  - apply (ws_text_lacks 125); [lia|exact Hw'].
Qed.

Lemma from_first_lbrace_sound (s t : string) :
  from_first_lbrace s = Some t ->
  exists a t', s = a ++ t /\ t = LBRACE ++ t' /\ has_char is_lbrace a = false.
Proof.
  revert t. induction s as [|c s IH]; intros t H; simpl in H; [discriminate|].
  destruct (is_lbrace c) eqn:Hc.
  - injection H as <-. exists EmptyString, s.
    rewrite (is_lbrace_eq c Hc). repeat split.
  - destruct (IH t H) as (a & t' & -> & -> & Ha).
    exists (String c a), t'. simpl. rewrite Hc, Ha. repeat split.
Qed.

Lemma upto_last_rbrace_sound (t m : string) :
  upto_last_rbrace t = Some m ->
  exists m' b, t = m ++ b /\ m = m' ++ RBRACE /\ has_char is_rbrace b = false.
Proof.
  revert m. induction t as [|c t IH]; intros m H; simpl in H; [discriminate|].
  destruct (upto_last_rbrace t) as [p|] eqn:Hp.
  - injection H as <-. destruct (IH p eq_refl) as (m' & b & -> & -> & Hb).
    exists (String c m'), b. repeat split. exact Hb.
  - destruct (is_rbrace c) eqn:Hc; [|discriminate]. injection H as <-.
    exists EmptyString, t. rewrite (is_rbrace_eq c Hc). repeat split.
    clear IH. induction t as [|d t IHt]; [reflexivity|].
    simpl in Hp. destruct (upto_last_rbrace t); [discriminate|].
    destruct (is_rbrace d) eqn:Hd; [discriminate|].
    simpl. rewrite Hd. apply IHt. reflexivity.
Qed.

Lemma upto_last_rbrace_complete (x b : string) :
  has_char is_rbrace b = false ->
  upto_last_rbrace (x ++ RBRACE ++ b) = Some (x ++ RBRACE).
Proof.
  intros Hb. induction x as [|c x IH]; simpl in *.
  - rewrite (upto_last_rbrace_none b Hb). reflexivity.
  - rewrite IH. reflexivity.
Qed.

(** ** What [extract_json] hands to the decoder *)

Lemma search_braces_iff (s m : string) :
  search_braces s = Some m <->
  exists a body b,
    s = a ++ m ++ b /\ m = LBRACE ++ body ++ RBRACE /\
    has_char is_lbrace a = false /\ has_char is_rbrace b = false.
Proof.
  unfold search_braces. split.
  - destruct (from_first_lbrace s) as [t|] eqn:Ht; [|discriminate].
    intros Hm.
    destruct (from_first_lbrace_sound s t Ht) as (a & t' & -> & -> & Ha).
    destruct (upto_last_rbrace_sound _ m Hm) as (m' & b & Hb & -> & Hr).
    destruct m' as [|c body].
    + discriminate Hb.
    + simpl in Hb. injection Hb as Hc Ht'. subst c t'.
      exists a, body, b. repeat split; assumption.
  - intros (a & body & b & -> & -> & Ha & Hb).
    rewrite (from_first_lbrace_skip a _ Ha). simpl from_first_lbrace.
    change (String "{" (body ++ RBRACE) ++ b)
      with (String "{" ((body ++ RBRACE) ++ b)).
    rewrite sapp_assoc.
    apply (upto_last_rbrace_complete (String "{" body) b Hb).
Qed.

(** X1. The brace search of [clean_llm_json] is a greedy outer match: it
    finds [m] in [s] exactly when [m] runs from the first opening brace of
    [s] to the last closing brace after it.  Two objects side by side are
    therefore taken as one text. *)
Theorem search_braces_outer_match (s m : string) :
  search_braces s = Some m <->
  exists a body b,
    s = a ++ m ++ b /\ m = LBRACE ++ body ++ RBRACE /\
    has_char is_lbrace a = false /\ has_char is_rbrace b = false.
Proof. exact (search_braces_iff s m). Qed.

(** Two objects in one answer: the match spans both. *)
Lemma search_braces_outer_match_witness :
  search_braces "x {a} {b} y" = Some "{a} {b}".
Proof.
  apply (proj2 (search_braces_outer_match "x {a} {b} y" "{a} {b}")).
  exists "x ", "a} {b", " y". repeat split.
Defined.

Lemma extract_json_without_fence (raw : string) :
  ~ has_fence raw ->
  extract_json raw = match search_braces raw with
                     | Some m => m
                     | None => strip raw
                     end.
Proof.
  intros H. unfold extract_json.
  rewrite (sub_fenced_id _ raw H), (remove_fences_id raw H), search_braces_strip.
  reflexivity.
Qed.

(** X2. A text without a run of three backticks that holds an object
    between prose (no opening brace before it, no closing brace after it)
    is reduced to that object, and [clean_llm_json] returns what
    [json.loads] decodes from the object.  With empty prose this is the
    well-formed answer, which passes unchanged. *)
Theorem extract_json_object_in_prose (pre body post : string) :
  ~ has_fence (pre ++ (LBRACE ++ body ++ RBRACE) ++ post) ->
  has_char is_lbrace pre = false ->
  has_char is_rbrace post = false ->
  extract_json (pre ++ (LBRACE ++ body ++ RBRACE) ++ post)
    = LBRACE ++ body ++ RBRACE /\
  (forall rt doc,
     json_loads rt (LBRACE ++ body ++ RBRACE) = Ok doc ->
     clean_llm_json rt (pre ++ (LBRACE ++ body ++ RBRACE) ++ post) = Ok doc).
Proof.
  intros Hf Hpre Hpost.
  assert (He : extract_json (pre ++ (LBRACE ++ body ++ RBRACE) ++ post)
               = LBRACE ++ body ++ RBRACE).
  { rewrite (extract_json_without_fence _ Hf).
    assert (Hs : search_braces (pre ++ (LBRACE ++ body ++ RBRACE) ++ post)
                 = Some (LBRACE ++ body ++ RBRACE)).
    { apply search_braces_iff. exists pre, body, post.
      repeat split; assumption. }
    rewrite Hs. reflexivity. }
  split; [exact He|].
  intros rt doc Hd. unfold clean_llm_json. rewrite He, Hd. reflexivity.
Qed.

Lemma extract_json_object_in_prose_witness :
  extract_json "Sure: {} Bye." = "{}" /\
  (forall rt doc,
     json_loads rt "{}" = Ok doc -> clean_llm_json rt "Sure: {} Bye." = Ok doc).
Proof.
  apply (extract_json_object_in_prose "Sure: " EmptyString " Bye.").
  - apply find_fence_none_iff. reflexivity.
  - reflexivity.
  - reflexivity.
Defined.

Lemma lstrip_chars_none (p : ascii -> bool) (s : string) :
  has_char p s = false -> lstrip_chars p s = s.
Proof.
  destruct s as [|c s]; simpl; [reflexivity|].
  intros H. apply orb_false_iff in H. destruct H as [-> _]. reflexivity.
Qed.

Lemma strip_backticks_fenced (x : string) :
  has_char is_backtick x = false ->
  strip_chars is_backtick (FENCE ++ x ++ FENCE) = x.
Proof.
  intros Hx. unfold strip_chars, rstrip_chars.
  change (lstrip_chars is_backtick (FENCE ++ x ++ FENCE))
    with (lstrip_chars is_backtick (x ++ FENCE)).
  destruct x as [|c x]; [reflexivity|].
  simpl in Hx. apply orb_false_iff in Hx. destruct Hx as [Hc Hx].
  simpl lstrip_chars. rewrite Hc.
  change (String c (x ++ FENCE)) with (String c x ++ FENCE).
  rewrite rev_string_app.
  change (rev_string FENCE) with FENCE.
  change (lstrip_chars is_backtick (FENCE ++ rev_string (String c x)))
    with (lstrip_chars is_backtick (rev_string (String c x))).
  rewrite lstrip_chars_none.
  - apply rev_string_involutive.
  - rewrite has_char_rev. simpl. rewrite Hc, Hx. reflexivity.
Qed.

Lemma sub_fenced_S (n : nat) (s : string) :
  sub_fenced (S n) s =
  match find_fence s with
  | None => s
  | Some (pre, after_open) =>
      match find_fence after_open with
      | None => s
      | Some (body, rest) =>
          pre ++ strip_chars is_backtick (FENCE ++ body ++ FENCE)
              ++ sub_fenced n rest
      end
  end.
Proof. reflexivity. Qed.

Lemma no_backtick_no_fence (s : string) :
  has_char is_backtick s = false -> ~ has_fence s.
Proof.
  intros H Hf. apply has_fence_has_backtick in Hf. congruence.
Qed.

Lemma extract_json_fenced (pre tag body tail post : string) :
  has_char is_backtick (pre ++ tag ++ body ++ tail ++ post) = false ->
  has_char is_lbrace (pre ++ tag) = false ->
  has_char is_rbrace (tail ++ post) = false ->
  extract_json
    (pre ++ FENCE ++ (tag ++ (LBRACE ++ body ++ RBRACE) ++ tail) ++ FENCE ++ post)
    = LBRACE ++ body ++ RBRACE /\
  (forall rt doc,
     json_loads rt (LBRACE ++ body ++ RBRACE) = Ok doc ->
     clean_llm_json rt
       (pre ++ FENCE ++ (tag ++ (LBRACE ++ body ++ RBRACE) ++ tail) ++ FENCE ++ post)
     = Ok doc).
Proof.
  intros Hbt Hl Hr.
  rewrite !has_char_app in Hbt.
  repeat (apply orb_false_iff in Hbt; destruct Hbt as [? Hbt]).
  set (obj := LBRACE ++ body ++ RBRACE).
  set (x := tag ++ obj ++ tail).
  set (raw := pre ++ FENCE ++ x ++ FENCE ++ post).
  assert (Hobj : has_char is_backtick obj = false).
  { unfold obj. rewrite !has_char_app. simpl. rewrite H1. reflexivity. }
  assert (Hx : has_char is_backtick x = false).
  { unfold x. rewrite !has_char_app, H0, Hobj, H2. reflexivity. }
  assert (Hsub : sub_fenced (String.length raw) raw = pre ++ x ++ post).
  { assert (Hlen : String.length raw <> 0).
    { unfold raw. rewrite length_sapp. simpl. lia. }
    destruct (String.length raw) as [|n]; [congruence|].
    rewrite sub_fenced_S. unfold raw.
    rewrite (find_fence_first pre _ H), (find_fence_first x post Hx).
    rewrite (strip_backticks_fenced x Hx).
    rewrite (sub_fenced_id n post (no_backtick_no_fence post Hbt)).
    reflexivity. }
  assert (Hclean : ~ has_fence (pre ++ x ++ post)).
  { apply no_backtick_no_fence. rewrite !has_char_app, H, Hx, Hbt. reflexivity. }
  assert (He : extract_json raw = obj).
  { unfold extract_json. rewrite Hsub, (remove_fences_id _ Hclean),
      search_braces_strip.
    assert (Hs : search_braces (pre ++ x ++ post) = Some obj).
    { apply search_braces_iff. exists (pre ++ tag), body, (tail ++ post).
      split; [unfold x; rewrite !sapp_assoc; reflexivity|].
      repeat split; assumption. }
    rewrite Hs. reflexivity. }
  split; [exact He|].
  intros rt doc Hd. unfold clean_llm_json. fold raw. rewrite He, Hd. reflexivity.
Qed.

(** X3. An object inside one fenced block is unwrapped when the prose
    before the block, the tag and the text before the object, the body of
    the object, the rest of the block and the prose after it contain no
    backtick, no opening brace stands before the object and no closing brace
    stands after it: the fences, the tag and the prose are dropped, the
    object is what [json.loads] receives, and what it decodes is returned. *)
Theorem extract_json_fenced_object (pre tag body tail post : string) :
  has_char is_backtick (pre ++ tag ++ body ++ tail ++ post) = false ->
  has_char is_lbrace (pre ++ tag) = false ->
  has_char is_rbrace (tail ++ post) = false ->
  extract_json
    (pre ++ FENCE ++ (tag ++ (LBRACE ++ body ++ RBRACE) ++ tail) ++ FENCE ++ post)
    = LBRACE ++ body ++ RBRACE /\
  (forall rt doc,
     json_loads rt (LBRACE ++ body ++ RBRACE) = Ok doc ->
     clean_llm_json rt
       (pre ++ FENCE ++ (tag ++ (LBRACE ++ body ++ RBRACE) ++ tail) ++ FENCE ++ post)
     = Ok doc).
Proof. exact (extract_json_fenced pre tag body tail post). Qed.

Lemma extract_json_fenced_object_witness :
  extract_json "Here: ```json {} ``` Done." = "{}" /\
  (forall rt doc,
     json_loads rt "{}" = Ok doc ->
     clean_llm_json rt "Here: ```json {} ``` Done." = Ok doc).
Proof.
  apply (extract_json_fenced_object "Here: " "json " EmptyString " " " Done.");
    reflexivity.
Defined.

(** The brace conditions cannot be dropped: a brace pair in the prose
    before the block widens the match, and the text handed to [json.loads]
    is then not the object of the block. *)
Example extract_json_brace_in_prose :
  extract_json "Note {x}: ```json {} ``` end" = "{x}: json {}".
Proof. reflexivity. Qed.

(** X4. Whatever the input, the text [clean_llm_json] hands to
    [json.loads] contains no run of three backticks. *)
Theorem extract_json_has_no_fence (raw : string) :
  ~ has_fence (extract_json raw).
Proof.
  unfold extract_json.
  set (c := remove_fences (sub_fenced (String.length raw) raw)).
  assert (Hc : ~ has_fence c).
  { apply find_fence_none_iff. apply remove_fences_no_fence. }
  assert (Hs : ~ has_fence (strip c)).
  { intros Hf. apply Hc. destruct (strip_decomp c) as (w & w' & -> & _).
    apply has_fence_app_r, has_fence_app_l. exact Hf. }
  destruct (search_braces (strip c)) as [m|] eqn:Hm; [|exact Hs].
  apply search_braces_iff in Hm.
  destruct Hm as (a & body & b & Heq & _).
  intros Hf. apply Hs. rewrite Heq.
  apply has_fence_app_r, has_fence_app_l. exact Hf.
Qed.

(* ------------------------------------------------------------------ *)
(** ** /analyze: what fails a request and what does not *)

Lemma vision_agent_ok_inv
      (E : Env) (plant : string) (img : ndarray E) (t : list event)
      (d : string) (c : Q) (tr : list event) :
  vision_agent E plant img t = (Ok (d, c), tr) ->
  exists m classes preds i,
    vocabulary plant = Some (m, classes) /\
    predict E m img = Ok preds /\
    np.argmax preds = Ok i /\ getitem classes i = Ok d /\
    np.max preds = Ok c /\ tr = (t ++ [EvPredict m])%list.
Proof.
  rewrite vision_agent_dispatch.
  destruct (vocabulary plant) as [[m classes]|] eqn:Hv; [|discriminate].
  unfold classify_with, bind, call, lift, ret.
  destruct (predict E m img) as [preds|e] eqn:Hp; [|discriminate].
  destruct (np.argmax preds) as [i|e] eqn:Hi; [|discriminate].
  destruct (getitem classes i) as [d'|e] eqn:Hd; [|discriminate].
  destruct (np.max preds) as [c'|e] eqn:Hc; [|discriminate].
  intros H. injection H as <- <- <-.
  exists m, classes, preds, i. repeat split; assumption.
Qed.

(** X5. In every response of /analyze the predicted label is a member of
    the vocabulary of the plant, and the confidence is one of the scores of
    the plant's model and at least every score (so it lies in any interval
    that holds all scores). *)
Theorem analyze_label_and_confidence
        (E : Env) (plant file : string) (r : DiagnosisResponse) (tr : list event) :
  run (analyze E plant file) = (Ok r, tr) ->
  exists m classes img preds,
    vocabulary plant = Some (m, classes) /\
    read_file_as_image E file = Ok img /\
    predict E m img = Ok preds /\
    In (resp_predicted_disease r) classes /\
    In (resp_confidence r) preds /\
    (forall x, In x preds -> (x <= resp_confidence r)%Q).
Proof.
  intros H. apply analyze_ok_inv in H.
  destruct H as (img & m & classes & preds & i & disease & c & llm & speech
                 & Himg & Hv & Hp & Hai & Hgi & Hmx & _ & _ & -> & _).
  exists m, classes, img, preds. simpl.
  split; [exact Hv|]. split; [exact Himg|]. split; [exact Hp|].
  split.
  - unfold getitem in Hgi.
    destruct (nth_error classes i) eqn:Hn; [|discriminate].
    injection Hgi as <-. eapply nth_error_In. exact Hn.
  - assert (Hne : preds <> []) by (intros ->; discriminate Hmx).
    destruct (argmax_max_first preds Hne) as (i' & c' & _ & Hmx' & Hfirst).
    rewrite Hmx in Hmx'. injection Hmx' as <-.
    destruct Hfirst as (Hnth & Hall & _). split.
    + eapply nth_error_In. exact Hnth.
    + intros x Hx. apply In_nth_error in Hx. destruct Hx as [j Hj].
      exact (Hall j x Hj).
Qed.

Lemma analyze_label_and_confidence_witness :
  exists m classes img preds,
    vocabulary "Potato" = Some (m, classes) /\
    read_file_as_image (examples.server examples.TREATMENT_ONLY) "upload" = Ok img /\
    predict (examples.server examples.TREATMENT_ONLY) m img = Ok preds /\
    In (resp_predicted_disease examples.potato_response) classes /\
    In (resp_confidence examples.potato_response) preds /\
    (forall x, In x preds -> (x <= resp_confidence examples.potato_response)%Q).
Proof.
  apply (analyze_label_and_confidence (examples.server examples.TREATMENT_ONLY)
           "Potato" "upload" examples.potato_response examples.potato_trace).
  vm_compute. reflexivity.
Defined.

(** X7. A failure of the text generator is not absorbed: once the vision
    agent has answered, an exception of the explanation request ends
    /analyze with that exception, and no speech is synthesized. *)
Theorem analyze_generator_failure_is_fatal
        (E : Env) (plant file : string) (img : ndarray E)
        (d : string) (c : Q) (tr1 : list event) (e : exn) :
  read_file_as_image E file = Ok img ->
  vision_agent E plant img [EvImageDecode] = (Ok (d, c), tr1) ->
  generate_llm_explanation E plant d = Raise e ->
  run (analyze E plant file) = (Raise e, (tr1 ++ [EvExplain plant d])%list).
Proof.
  intros Himg Hv Hg. rewrite (analyze_after_vision E plant file img d c tr1 Himg Hv).
  rewrite Hg. reflexivity.
Qed.

Lemma analyze_generator_failure_is_fatal_witness :
  run (analyze (more_examples.backend [1%Q] (Raise more_examples.OFFLINE) (Ok tt))
         "potato" "upload")
  = (Raise more_examples.OFFLINE,
     [EvImageDecode; EvPredict POTATO_MODEL; EvExplain "potato" "Early Blight"]).
Proof.
  apply (analyze_generator_failure_is_fatal
           (more_examples.backend [1%Q] (Raise more_examples.OFFLINE) (Ok tt))
           "potato" "upload" tt "Early Blight" 1%Q
           [EvImageDecode; EvPredict POTATO_MODEL]); reflexivity.
Defined.

(** X8. A failure of the speech synthesis ends /analyze with that
    exception, after classification and explanation have been done. *)
Theorem analyze_audio_failure_is_fatal
        (E : Env) (plant file : string) (img : ndarray E)
        (d : string) (c : Q) (tr1 : list event) (llm speech : string) (e : exn) :
  read_file_as_image E file = Ok img ->
  vision_agent E plant img [EvImageDecode] = (Ok (d, c), tr1) ->
  generate_llm_explanation E plant d = Ok llm ->
  speech_text E plant d (parse_or_fallback E llm) = Ok speech ->
  gtts_save E speech (audio_path E) = Raise e ->
  run (analyze E plant file)
  = (Raise e,
     (tr1 ++ [EvExplain plant d; EvSpeech speech (audio_path E)])%list).
Proof.
  intros Himg Hv Hg Hs Ha.
  rewrite (analyze_after_vision E plant file img d c tr1 Himg Hv).
  rewrite Hg, Hs, Ha, <- app_assoc. reflexivity.
Qed.

Lemma analyze_audio_failure_is_fatal_witness :
  exists speech,
    run (analyze (more_examples.backend [1%Q] (Ok "{}")
                    (Raise more_examples.DISK_FULL))
           "potato" "upload")
    = (Raise more_examples.DISK_FULL,
       [EvImageDecode; EvPredict POTATO_MODEL; EvExplain "potato" "Early Blight";
        EvSpeech speech "audio/1b4e28ba-2fa1-41d2-883f-0016d3cca427.mp3"]).
Proof.
  eexists.
  apply (analyze_audio_failure_is_fatal
           (more_examples.backend [1%Q] (Ok "{}") (Raise more_examples.DISK_FULL))
           "potato" "upload" tt "Early Blight" 1%Q
           [EvImageDecode; EvPredict POTATO_MODEL] "{}"); reflexivity.
Defined.

(** X9. Generated text that [json.loads] refuses, with whatever exception,
    does not fail the request: when image decoding, classification and
    speech synthesis work, /analyze answers with the label and the
    confidence of the vision agent, the fallback envelope around the text,
    and a spoken summary that uses the fixed no-treatment sentence (or the
    healthy sentence). *)
Theorem analyze_absorbs_malformed_text
        (E : Env) (plant file : string) (img : ndarray E)
        (d : string) (c : Q) (tr1 : list event) (llm : string) (e : exn) :
  read_file_as_image E file = Ok img ->
  vision_agent E plant img [EvImageDecode] = (Ok (d, c), tr1) ->
  generate_llm_explanation E plant d = Ok llm ->
  json_loads (runtime E) llm = Raise e ->
  (forall text, gtts_save E text (audio_path E) = Ok tt) ->
  exists speech,
    run (analyze E plant file)
    = (Ok {| resp_plant := plant;
             resp_predicted_disease := d;
             resp_confidence := c;
             resp_explanation := fallback_envelope "LLM produced invalid JSON" llm;
             resp_audio_url := "/audio/" ++ last_segment (audio_path E) |},
       (tr1 ++ [EvExplain plant d; EvSpeech speech (audio_path E)])%list) /\
    speech
    = (if lower d =? "healthy"
       then "The " ++ plant ++ " plant, is detected healthy."
       else "For " ++ plant ++ " plant, the detected disease is " ++ d ++ ". "
            ++ "The recommended treatment is: " ++ NO_TREATMENT ++ ".").
Proof.
  intros Himg Hv Hg Hl Ha.
  rewrite (analyze_after_vision E plant file img d c tr1 Himg Hv), Hg.
  unfold parse_or_fallback. rewrite Hl.
  unfold speech_text.
  destruct (lower d =? "healthy"); simpl dict_get; cbv iota;
    rewrite Ha, <- app_assoc; eexists; (split; [reflexivity|reflexivity]).
Qed.

Lemma analyze_absorbs_malformed_text_witness :
  exists speech,
    run (analyze (more_examples.backend [1%Q] (Ok "no json") (Ok tt))
           "potato" "upload")
    = (Ok {| resp_plant := "potato";
             resp_predicted_disease := "Early Blight";
             resp_confidence := 1%Q;
             resp_explanation :=
               fallback_envelope "LLM produced invalid JSON" "no json";
             resp_audio_url :=
               "/audio/1b4e28ba-2fa1-41d2-883f-0016d3cca427.mp3" |},
       [EvImageDecode; EvPredict POTATO_MODEL;
        EvExplain "potato" "Early Blight";
        EvSpeech speech "audio/1b4e28ba-2fa1-41d2-883f-0016d3cca427.mp3"])
    /\
    speech
    = "For potato plant, the detected disease is Early Blight. "
      ++ "The recommended treatment is: " ++ NO_TREATMENT ++ ".".
Proof.
  apply (analyze_absorbs_malformed_text
           (more_examples.backend [1%Q] (Ok "no json") (Ok tt))
           "potato" "upload" tt "Early Blight" 1%Q
           [EvImageDecode; EvPredict POTATO_MODEL] "no json"
           json_ref.syntax_error); reflexivity.
Defined.

(** X10. Generated text that decodes to something other than an object (a
    list, a string, a number, null) is kept as the explanation, and for a
    label other than healthy the request then fails with an
    [AttributeError] when the treatment is looked up, before any speech is
    synthesized; for the healthy label the request still succeeds. *)
Theorem analyze_non_dict_explanation_aborts
        (E : Env) (plant file : string) (img : ndarray E)
        (d : string) (c : Q) (tr1 : list event) (llm : string) (v : json) :
  read_file_as_image E file = Ok img ->
  vision_agent E plant img [EvImageDecode] = (Ok (d, c), tr1) ->
  generate_llm_explanation E plant d = Ok llm ->
  json_loads (runtime E) llm = Ok v ->
  (forall kvs, v <> JObj kvs) ->
  (lower d <> "healthy" ->
   exists e, exn_cls e = AttributeError /\
             run (analyze E plant file)
             = (Raise e, (tr1 ++ [EvExplain plant d])%list)) /\
  (lower d = "healthy" ->
   (forall text, gtts_save E text (audio_path E) = Ok tt) ->
   exists r tr, run (analyze E plant file) = (Ok r, tr) /\ resp_explanation r = v).
Proof.
  intros Himg Hv Hg Hl Hno.
  rewrite (analyze_after_vision E plant file img d c tr1 Himg Hv), Hg.
  unfold parse_or_fallback. rewrite Hl. split.
  - intros Hd.
    destruct (speech_text_cases E plant d v) as (_ & _ & H3).
    destruct (H3 Hd Hno) as (e & He & Hc). rewrite He.
    exists e. split; [exact Hc|reflexivity].
  - intros Hd Ha.
    destruct (speech_text_cases E plant d v) as (H1 & _ & _).
    rewrite (H1 Hd), Ha. eexists. eexists. split; reflexivity.
Qed.

Lemma analyze_non_dict_explanation_aborts_witness :
  exists e,
    exn_cls e = AttributeError /\
    run (analyze (more_examples.backend [1%Q] (Ok "[]") (Ok tt)) "potato" "upload")
    = (Raise e,
       ([EvImageDecode; EvPredict POTATO_MODEL]
        ++ [EvExplain "potato" "Early Blight"])%list).
Proof.
  apply (proj1 (analyze_non_dict_explanation_aborts
                  (more_examples.backend [1%Q] (Ok "[]") (Ok tt))
                  "potato" "upload" tt "Early Blight" 1%Q
                  [EvImageDecode; EvPredict POTATO_MODEL] "[]" (JArr [])
                  eq_refl eq_refl eq_refl eq_refl
                  (fun kvs H => ltac:(discriminate H)))).
  discriminate.
Defined.

Ltac prefix_with m d s :=
  exists m, d, s; eexists; simpl; reflexivity.

(** X11. In every run of /analyze, successful or not, the external calls
    are an initial part of the sequence: decode the upload, run one model,
    ask for one explanation, synthesize one speech to the audio path of the
    request.  No step is repeated and none is taken out of order. *)
Theorem analyze_call_order (E : Env) (plant file : string) :
  exists m d speech,
    is_prefix_of (snd (run (analyze E plant file)))
      [EvImageDecode; EvPredict m; EvExplain plant d;
       EvSpeech speech (audio_path E)].
Proof.
  unfold run, analyze. unfold bind at 1. unfold call at 1.
  destruct (read_file_as_image E file) as [img|e];
    [|prefix_with POTATO_MODEL EmptyString EmptyString].
  unfold bind at 1. rewrite vision_agent_dispatch.
  destruct (vocabulary plant) as [[m classes]|];
    [|prefix_with POTATO_MODEL EmptyString EmptyString].
  unfold classify_with, language_agent, generate_audio, bind, call, lift, ret.
  change ("audio" ++ "/" ++ uuid4 E ++ ".mp3") with (audio_path E).
  destruct (predict E m img) as [preds|e];
    [|prefix_with m EmptyString EmptyString].
  destruct (np.argmax preds) as [i|e];
    [|prefix_with m EmptyString EmptyString].
  destruct (getitem classes i) as [d|e];
    [|prefix_with m EmptyString EmptyString].
  destruct (np.max preds) as [c|e];
    [|prefix_with m EmptyString EmptyString].
  destruct (generate_llm_explanation E plant d) as [llm|e];
    [|prefix_with m d EmptyString].
  destruct (speech_text E plant d (parse_or_fallback E llm)) as [speech|e];
    [|prefix_with m d EmptyString].
  destruct (gtts_save E speech (audio_path E)); prefix_with m d speech.
Qed.

(** ** /plant_info *)

(** X12. For a supported plant type /plant_info asks the text generator
    once.  If that request raises, /plant_info raises the same exception;
    if it answers, /plant_info returns a dict with the one key info, whose
    value is the decoded text or, when decoding raises anything, the
    fallback envelope around the text. *)
Theorem plant_info_follows_generator (E : Env) (plant : string) :
  valid_plant plant = true ->
  (forall e, generate_llm_info E plant = Raise e ->
             run (fastapi_server.plant_info E plant) = (Raise e, [EvInfo plant])) /\
  (forall llm, generate_llm_info E plant = Ok llm ->
     exists info,
       run (fastapi_server.plant_info E plant)
         = (Ok (JObj [("info", info)]), [EvInfo plant]) /\
       (forall doc, json_loads (runtime E) llm = Ok doc -> info = doc) /\
       (forall e, json_loads (runtime E) llm = Raise e ->
                  info = fallback_envelope "LLM produced invalid JSON" llm)).
Proof.
  intros Hvalid. unfold fastapi_server.plant_info.
  fold (valid_plant plant). rewrite Hvalid.
  unfold run, bind, call, ret. split.
  - intros e Hg. rewrite Hg. reflexivity.
  - intros llm Hg. rewrite Hg.
    exists (parse_or_fallback E llm). split; [reflexivity|].
    unfold parse_or_fallback.
    destruct (json_loads (runtime E) llm) as [doc|e]; split; intros x Hx;
      try discriminate; try reflexivity.
    injection Hx as <-. reflexivity.
Qed.

Lemma plant_info_follows_generator_witness :
  (forall e,
     generate_llm_info (more_examples.backend [1%Q] (Ok "no json") (Ok tt)) "Pepper"
     = Raise e ->
     run (fastapi_server.plant_info
            (more_examples.backend [1%Q] (Ok "no json") (Ok tt)) "Pepper")
     = (Raise e, [EvInfo "Pepper"])) /\
  (forall llm,
     generate_llm_info (more_examples.backend [1%Q] (Ok "no json") (Ok tt)) "Pepper"
     = Ok llm ->
     exists info,
       run (fastapi_server.plant_info
              (more_examples.backend [1%Q] (Ok "no json") (Ok tt)) "Pepper")
       = (Ok (JObj [("info", info)]), [EvInfo "Pepper"]) /\
       (forall doc, json_loads json_ref.runtime llm = Ok doc -> info = doc) /\
       (forall e, json_loads json_ref.runtime llm = Raise e ->
                  info = fallback_envelope "LLM produced invalid JSON" llm)).
Proof.
  apply (plant_info_follows_generator
           (more_examples.backend [1%Q] (Ok "no json") (Ok tt)) "Pepper").
  reflexivity.
Defined.

(** ** The audio locator *)

Lemma last_segment_from_no_slash (b cur : string) :
  has_char is_slash b = false -> last_segment_from b cur = cur.
Proof.
  revert cur. induction b as [|c b IH]; intros cur H; simpl; [reflexivity|].
  simpl in H. apply orb_false_iff in H. destruct H as [Hc Hb].
  rewrite Hc. apply IH. exact Hb.
Qed.

Lemma last_segment_from_slash (a y cur : string) :
  has_char is_slash y = false ->
  last_segment_from (a ++ "/" ++ y) cur = y.
Proof.
  intros Hy. revert cur. induction a as [|c a IH]; intros cur.
  - simpl. apply last_segment_from_no_slash. exact Hy.
  - change (String c a ++ "/" ++ y) with (String c (a ++ "/" ++ y)).
    simpl last_segment_from. destruct (is_slash c); apply IH.
Qed.

Lemma last_segment_after_slash (a y : string) :
  has_char is_slash y = false -> last_segment (a ++ "/" ++ y) = y.
Proof. intros Hy. apply last_segment_from_slash. exact Hy. Qed.

(** X13. When the identifier drawn for the request contains no slash (a
    UUID does not), the [audio_url] of the response is /audio/ followed by
    the identifier and .mp3, and the audio route serves, for that file
    name, exactly the file the speech of the request was saved to, as
    audio/mpeg. *)
Theorem audio_locator_round_trip
        (E : Env) (plant file : string) (r : DiagnosisResponse) (tr : list event) :
  has_char is_slash (uuid4 E) = false ->
  run (analyze E plant file) = (Ok r, tr) ->
  resp_audio_url r = "/audio/" ++ uuid4 E ++ ".mp3" /\
  fastapi_audio.serve_audio (uuid4 E ++ ".mp3") = (audio_path E, "audio/mpeg") /\
  exists speech, In (EvSpeech speech (audio_path E)) tr.
Proof.
  intros Hu H. apply analyze_ok_inv in H.
  destruct H as (img & m & classes & preds & i & disease & c & llm & speech
                 & _ & _ & _ & _ & _ & _ & _ & _ & -> & ->).
  assert (Hseg : last_segment (audio_path E) = uuid4 E ++ ".mp3").
  { unfold audio_path.
    change ("audio/" ++ uuid4 E ++ ".mp3")
      with ("audio" ++ "/" ++ (uuid4 E ++ ".mp3")).
    apply last_segment_after_slash.
    rewrite has_char_app, Hu. reflexivity. }
  split; [|split].
  - cbn [resp_audio_url]. rewrite Hseg. reflexivity.
  - reflexivity.
  - exists speech. simpl. right. right. right. left. reflexivity.
Qed.

Lemma audio_locator_round_trip_witness :
  resp_audio_url examples.potato_response
  = "/audio/" ++ uuid4 (examples.server examples.TREATMENT_ONLY) ++ ".mp3" /\
  fastapi_audio.serve_audio
    (uuid4 (examples.server examples.TREATMENT_ONLY) ++ ".mp3")
  = (audio_path (examples.server examples.TREATMENT_ONLY), "audio/mpeg") /\
  exists speech,
    In (EvSpeech speech (audio_path (examples.server examples.TREATMENT_ONLY)))
       examples.potato_trace.
Proof.
  apply (audio_locator_round_trip (examples.server examples.TREATMENT_ONLY)
           "Potato" "upload" examples.potato_response examples.potato_trace).
  - reflexivity.
  - vm_compute. reflexivity.
Defined.

(* ------------------------------------------------------------------ *)
(** ** The plant_info tool *)

(** X14. The plant_info tool always returns: the document decoded from a
    200 answer, or an error dict.  A 404 is reported as "Endpoint not
    implemented", any other status than 200 as "API error", a connection
    error as "Connection failed"; every other exception, a timeout
    included, is reported under its own message as the error kind.  On an
    invalid plant type nothing is requested. *)
Theorem plant_info_tool_total (T : mcp_server.Env) (plant : string) :
  exists v tr,
    run (mcp_server.plant_info T plant) = (Ok v, tr) /\
    plant_info_outcome T plant v /\
    (valid_plant plant = false -> tr = []).
Proof.
  unfold mcp_server.plant_info.
  change (str_in (lower plant) mcp_server.valid_plants) with (valid_plant plant).
  destruct (valid_plant plant) eqn:Hvalid.
  2:{ eexists. eexists. split; [reflexivity|].
      split; [apply pi_invalid_plant; exact Hvalid|reflexivity]. }
  unfold negb, run, try_except, bind, call, lift, ret.
  change (mcp_server.requests_get T _ _) with (get_plant_info T plant).
  assert (Hraise : forall e,
    info_raised T plant e ->
    plant_info_outcome T plant
      (if isinstance_ConnectionError e
       then mcp_server.error_envelope "Connection failed" []
       else mcp_server.error_envelope (exn_msg e) [])).
  { intros e Hr. destruct (isinstance_ConnectionError e) eqn:Hc.
    - eapply pi_connection; eassumption.
    - eapply pi_other; eassumption. }
  destruct (get_plant_info T plant) as [resp|e] eqn:Hget.
  - destruct (mcp_server.status_code resp =? 404)%Z eqn:H404.
    + apply Z.eqb_eq in H404.
      eexists. eexists. split; [reflexivity|]. split; [|discriminate].
      eapply pi_not_implemented; eassumption.
    + apply Z.eqb_neq in H404.
      destruct (mcp_server.status_code resp =? 200)%Z eqn:H200.
      * apply Z.eqb_eq in H200.
        destruct (mcp_server.resp_json T resp) as [v|e] eqn:Hjson.
        -- eexists. eexists. split; [reflexivity|]. split; [|discriminate].
           eapply pi_payload; eassumption.
        -- assert (Hr : info_raised T plant e).
           { right. exists resp. repeat split; assumption. }
           specialize (Hraise e Hr).
           destruct (isinstance_ConnectionError e);
             (eexists; eexists; split; [reflexivity|];
              split; [exact Hraise|discriminate]).
      * apply Z.eqb_neq in H200.
        eexists. eexists. split; [reflexivity|]. split; [|discriminate].
        eapply pi_api_error; eassumption.
  - assert (Hr : info_raised T plant e) by (left; exact Hget).
    specialize (Hraise e Hr).
    destruct (isinstance_ConnectionError e);
      (eexists; eexists; split; [reflexivity|];
       split; [exact Hraise|discriminate]).
Qed.

Lemma plant_info_tool_total_witness :
  exists v tr,
    run (mcp_server.plant_info (examples.host (examples.reply 404 "Not Found"))
           "Tomato")
    = (Ok v, tr) /\
    plant_info_outcome (examples.host (examples.reply 404 "Not Found")) "Tomato" v /\
    (valid_plant "Tomato" = false -> tr = []).
Proof.
  exact (plant_info_tool_total (examples.host (examples.reply 404 "Not Found"))
           "Tomato").
Defined.

(** ** play_audio *)


Lemma startswith_slash_cons (u : string) : startswith ("/" ++ u) "/" = true.
Proof. destruct u; reflexivity. Qed.

Lemma normalize_url_slash (u : string) :
  startswith (normalize_url u) "/" = true.
Proof.
  unfold normalize_url. destruct (startswith u "/") eqn:H; simpl negb; cbv iota.
  - exact H.
  - apply startswith_slash_cons.
Qed.

Lemma normalize_url_fixed (u : string) :
  startswith u "/" = true -> normalize_url u = u.
Proof. unfold normalize_url. intros ->. reflexivity. Qed.

(** X16. play_audio treats a locator with and without a leading slash
    alike: normalizing a locator twice changes nothing, a normalized locator
    gives the same run as the original, and so does the locator with a
    slash put in front when it had none. *)
Theorem play_audio_leading_slash
        (get : string -> Z -> result Download) (u : string) :
  normalize_url (normalize_url u) = normalize_url u /\
  play_audio get (normalize_url u) = play_audio get u /\
  (startswith u "/" = false -> play_audio get ("/" ++ u) = play_audio get u).
Proof.
  assert (Hidem : normalize_url (normalize_url u) = normalize_url u)
    by (apply normalize_url_fixed, normalize_url_slash).
  split; [exact Hidem|]. split.
  - unfold play_audio. rewrite Hidem. reflexivity.
  - intros H. unfold play_audio.
    replace (normalize_url ("/" ++ u)) with (normalize_url u); [reflexivity|].
    unfold normalize_url at 1. rewrite H. simpl negb. cbv iota.
    symmetry. apply normalize_url_fixed. apply startswith_slash_cons.
Qed.

Lemma play_audio_leading_slash_witness :
  play_audio (more_examples.audio_backend (Ok more_examples.MP3_REPLY))
    "/audio/a.mp3"
  = play_audio (more_examples.audio_backend (Ok more_examples.MP3_REPLY))
      "audio/a.mp3".
Proof.
  apply (proj2 (proj2 (play_audio_leading_slash
                         (more_examples.audio_backend (Ok more_examples.MP3_REPLY))
                         "audio/a.mp3"))).
  reflexivity.
Defined.

(** X17. play_audio always returns, after one GET of the normalized
    locator under the backend URL: on status 200 the success dict with the
    base64 text of the body, the format read off the suffix of the locator
    (wav, ogg, otherwise mp3) and the body's length in bytes; on another
    status "Failed to download audio"; on a timeout "Request timed out";
    on a connection error "Connection failed"; on anything else
    "Unexpected error". *)
Theorem play_audio_total
        (get : string -> Z -> result Download) (u : string) :
  exists v,
    run (play_audio get u)
      = (Ok v, [EvGet (mcp_server.FASTAPI_URL ++ normalize_url u)]) /\
    play_audio_outcome get u v.
Proof.
  unfold play_audio, run, try_except, bind, call, lift, ret.
  change (get (mcp_server.FASTAPI_URL ++ normalize_url u) 30%Z)
    with (get_audio get u).
  destruct (get_audio get u) as [resp|e] eqn:Hget.
  - destruct (mcp_server.status_code (reply resp) =? 200)%Z eqn:Hcode.
    + apply Z.eqb_eq in Hcode.
      eexists. split; [reflexivity|]. eapply pa_success; eassumption.
    + apply Z.eqb_neq in Hcode.
      eexists. split; [reflexivity|]. eapply pa_failed; eassumption.
  - destruct (isinstance_Timeout e) eqn:Ht;
      [|destruct (isinstance_ConnectionError e) eqn:Hc];
      (eexists; split; [reflexivity|]).
    + eapply pa_timeout; eassumption.
    + eapply pa_connection; eassumption.
    + eapply pa_unexpected; eassumption.
Qed.

Lemma last_segment_from_app (a b cur : string) :
  has_char is_slash b = false ->
  last_segment_from (a ++ b) (cur ++ b) = last_segment_from a cur ++ b.
Proof.
  intros Hb. revert cur. induction a as [|c a IH]; intros cur.
  - simpl. apply last_segment_from_no_slash. exact Hb.
  - simpl. destruct (is_slash c); apply IH.
Qed.

Lemma last_segment_app (a b : string) :
  has_char is_slash b = false -> last_segment (a ++ b) = last_segment a ++ b.
Proof. intros Hb. apply last_segment_from_app. exact Hb. Qed.

Lemma audio_format_mp3 (x : string) : audio_format_of (x ++ ".mp3") = "mp3".
Proof.
  unfold audio_format_of, endswith. rewrite rev_string_app. reflexivity.
Qed.

(** X18. play_audio applied to the [audio_url] of a response of /analyze
    requests the backend URL followed by that locator, unchanged, and on a
    200 answer reports the format mp3 with the body's base64 text and
    length. *)
Theorem play_audio_of_analyze_locator
        (E : Env) (plant file : string) (r : DiagnosisResponse) (tr : list event)
        (get : string -> Z -> result Download) (resp : Download) :
  run (analyze E plant file) = (Ok r, tr) ->
  get (mcp_server.FASTAPI_URL ++ resp_audio_url r) 30%Z = Ok resp ->
  mcp_server.status_code (reply resp) = 200%Z ->
  run (play_audio get (resp_audio_url r))
  = (Ok (JObj [("success", JBool true);
               ("audio_data", JStr (b64encode (content resp)));
               ("format", JStr "mp3");
               ("size_bytes", JInt (Z.of_nat (String.length (content resp))))]),
     [EvGet (mcp_server.FASTAPI_URL ++ resp_audio_url r)]).
Proof.
  intros H Hget Hcode. apply analyze_ok_inv in H.
  destruct H as (img & m & classes & preds & i & disease & c & llm & speech
                 & _ & _ & _ & _ & _ & _ & _ & _ & -> & _).
  cbn [resp_audio_url] in *.
  set (url := "/audio/" ++ last_segment (audio_path E)) in *.
  assert (Hn : normalize_url url = url).
  { apply normalize_url_fixed. unfold url.
    change ("/audio/" ++ last_segment (audio_path E))
      with ("/" ++ ("audio/" ++ last_segment (audio_path E))).
    apply startswith_slash_cons. }
  assert (Hf : audio_format_of url = "mp3").
  { unfold url, audio_path.
    change ("audio/" ++ uuid4 E ++ ".mp3") with (("audio/" ++ uuid4 E) ++ ".mp3").
    rewrite last_segment_app by reflexivity.
    change ("/audio/" ++ last_segment ("audio/" ++ uuid4 E) ++ ".mp3")
      with (("/audio/" ++ last_segment ("audio/" ++ uuid4 E)) ++ ".mp3").
    apply audio_format_mp3. }
  unfold play_audio, run, try_except, bind, call, lift, ret.
  rewrite Hn, Hget, Hcode, Hf. reflexivity.
Qed.

Lemma play_audio_of_analyze_locator_witness :
  run (play_audio (more_examples.audio_backend (Ok more_examples.MP3_REPLY))
         (resp_audio_url examples.potato_response))
  = (Ok (JObj [("success", JBool true);
               ("audio_data",
                JStr (b64encode (mcp_audio.content more_examples.MP3_REPLY)));
               ("format", JStr "mp3");
               ("size_bytes",
                JInt (Z.of_nat
                        (String.length
                           (mcp_audio.content more_examples.MP3_REPLY))))]),
     [EvGet (mcp_server.FASTAPI_URL ++ resp_audio_url examples.potato_response)]).
Proof.
  apply (play_audio_of_analyze_locator
           (examples.server examples.TREATMENT_ONLY) "Potato" "upload"
           examples.potato_response examples.potato_trace
           (more_examples.audio_backend (Ok more_examples.MP3_REPLY))
           more_examples.MP3_REPLY).
  - vm_compute. reflexivity.
  - reflexivity.
  - reflexivity.
Defined.

(** ** What the tools send to the backend *)

Lemma valid_plant_lower_in (plant : string) :
  valid_plant plant = true -> In (lower plant) mcp_server.valid_plants.
Proof.
  intros H. apply valid_plant_iff in H. unfold mcp_server.valid_plants. simpl.
  destruct H as [->|[->| ->]]; tauto.
Qed.

Lemma In_valid_plants_valid (p : string) :
  In p mcp_server.valid_plants -> valid_plant p = true.
Proof.
  unfold mcp_server.valid_plants. simpl.
  intros [<-|[<-|[<-|[]]]]; reflexivity.
Qed.

Ltac scan_trace Hl :=
  simpl; intros Hl;
  repeat (destruct Hl as [Hl|Hl]; [try discriminate Hl|]);
  try contradiction.

(** X15. Whatever spelling the caller used, every request the analyze_plant
    and plant_info tools send to the backend names the plant by one of the
    three lower-case names, which the backend's own validation accepts:
    the tools never forward a plant type the backend would reject. *)
Theorem tools_forward_canonical_plant
        (T : mcp_server.Env) (plant image_path : string) :
  (forall url p,
     In (EvPost url p) (snd (run (mcp_server.analyze_plant T plant image_path))) ->
     url = mcp_server.FASTAPI_URL ++ "/analyze" /\
     In p mcp_server.valid_plants /\ valid_plant p = true) /\
  (forall url,
     In (EvGet url) (snd (run (mcp_server.plant_info T plant))) ->
     exists p, In p mcp_server.valid_plants /\ valid_plant p = true /\
               url = mcp_server.FASTAPI_URL ++ "/plant_info/" ++ p).
Proof.
  split.
  - intros url p. unfold mcp_server.analyze_plant.
    change (str_in (lower plant) mcp_server.valid_plants) with (valid_plant plant).
    destruct (valid_plant plant) eqn:Hvalid; [|intros []].
    pose proof (valid_plant_lower_in plant Hvalid) as Hin.
    pose proof (In_valid_plants_valid _ Hin) as Hok.
    unfold negb, run. unfold bind at 1. unfold call at 1.
    destruct (mcp_server.path_exists T image_path) as [[|]|e];
      [|scan_trace Hl|scan_trace Hl].
    unfold try_except, bind, call, lift, ret.
    destruct (mcp_server.open_rb T image_path) as [f|e].
    + destruct (mcp_server.requests_post T _ _ _ _) as [resp|e].
      * destruct (mcp_server.status_code resp =? 200)%Z; unfold negb.
        -- destruct (mcp_server.resp_json T resp) as [v|e];
             [|destruct (isinstance_Timeout e);
               [|destruct (isinstance_ConnectionError e)]];
             scan_trace Hl; injection Hl as <- <-; repeat split; assumption.
        -- scan_trace Hl; injection Hl as <- <-; repeat split; assumption.
      * destruct (isinstance_Timeout e);
          [|destruct (isinstance_ConnectionError e)];
          scan_trace Hl; injection Hl as <- <-; repeat split; assumption.
    + destruct (isinstance_Timeout e);
        [|destruct (isinstance_ConnectionError e)]; scan_trace Hl.
  - intros url. unfold mcp_server.plant_info.
    change (str_in (lower plant) mcp_server.valid_plants) with (valid_plant plant).
    destruct (valid_plant plant) eqn:Hvalid; [|intros []].
    pose proof (valid_plant_lower_in plant Hvalid) as Hin.
    unfold negb, run, try_except, bind, call, lift, ret.
    assert (Hget :
      In (EvGet url)
         [EvGet (mcp_server.FASTAPI_URL ++ "/plant_info/" ++ lower plant)] ->
      exists p, In p mcp_server.valid_plants /\ valid_plant p = true /\
                url = mcp_server.FASTAPI_URL ++ "/plant_info/" ++ p).
    { intros [H|[]]. injection H as <-. exists (lower plant).
      split; [exact Hin|]. split; [apply In_valid_plants_valid; exact Hin|].
      reflexivity. }
    destruct (mcp_server.requests_get T _ _) as [resp|e].
    + destruct (mcp_server.status_code resp =? 404)%Z; [exact Hget|].
      destruct (mcp_server.status_code resp =? 200)%Z; [|exact Hget].
      destruct (mcp_server.resp_json T resp) as [v|e]; [exact Hget|].
      destruct (isinstance_ConnectionError e); exact Hget.
    + destruct (isinstance_ConnectionError e); exact Hget.
Qed.

Lemma tools_forward_canonical_plant_witness :
  "http://localhost:8000/analyze" = mcp_server.FASTAPI_URL ++ "/analyze" /\
  In "potato" mcp_server.valid_plants /\ valid_plant "potato" = true.
Proof.
  apply (proj1 (tools_forward_canonical_plant
                  (examples.host (examples.reply 200 "{}")) "POTATO" "leaf.jpg")
           "http://localhost:8000/analyze" "potato").
  vm_compute. right. right. left. reflexivity.
Defined.

(** X6. For a supported plant type and an upload that decodes, a failure
    of the vision step ends /analyze before any text is generated: an
    exception of the model is passed on, an empty score vector is a
    [ValueError], and a greatest score at an index beyond the vocabulary
    is an [IndexError]. *)
Theorem analyze_vision_failures
        (E : Env) (plant file : string) (img : ndarray E)
        (m : model_id) (classes : list string) :
  read_file_as_image E file = Ok img ->
  vocabulary plant = Some (m, classes) ->
  (forall e, predict E m img = Raise e ->
             run (analyze E plant file)
             = (Raise e, [EvImageDecode; EvPredict m])) /\
  (predict E m img = Ok [] ->
   exists e, exn_cls e = ValueError /\
             run (analyze E plant file)
             = (Raise e, [EvImageDecode; EvPredict m])) /\
  (forall preds i,
     predict E m img = Ok preds -> np.argmax preds = Ok i ->
     length classes <= i ->
     exists e, exn_cls e = IndexError /\
               run (analyze E plant file)
               = (Raise e, [EvImageDecode; EvPredict m])).
Proof.
  intros Himg Hv.
  assert (Hstart : run (analyze E plant file) =
    (x <- (p <- classify_with E m classes img ;;
           (let (disease, preds) := p in
            confidence <- lift (np.max preds) ;; ret (disease, confidence))) ;;
     (let (disease, confidence) := x in
      explanation <- language_agent E plant disease ;;
      speech <- lift (speech_text E plant disease explanation) ;;
      audio_path <- generate_audio E speech ;;
      ret {| resp_plant := plant;
             resp_predicted_disease := disease;
             resp_confidence := confidence;
             resp_explanation := explanation;
             resp_audio_url := "/audio/" ++ last_segment audio_path |}))
    [EvImageDecode]).
  { unfold run, analyze. unfold bind at 1. unfold call at 1. rewrite Himg.
    unfold bind at 1. rewrite vision_agent_dispatch, Hv. reflexivity. }
  rewrite Hstart. unfold classify_with, bind, call, lift, ret.
  split; [|split].
  - intros e Hp. rewrite Hp. reflexivity.
  - intros Hp. rewrite Hp. simpl. eexists. split; [|reflexivity]. reflexivity.
  - intros preds i Hp Hi Hlen. rewrite Hp, Hi.
    unfold getitem. apply nth_error_None in Hlen. rewrite Hlen.
    eexists. split; [|reflexivity]. reflexivity.
Qed.

Lemma analyze_vision_failures_witness :
  exists e,
    exn_cls e = IndexError /\
    run (analyze (more_examples.backend [0; 0; 0; 1]%Q (Ok "{}") (Ok tt))
           "potato" "upload")
    = (Raise e, [EvImageDecode; EvPredict POTATO_MODEL]).
Proof.
  apply (proj2 (proj2 (analyze_vision_failures
                         (more_examples.backend [0; 0; 0; 1]%Q (Ok "{}") (Ok tt))
                         "potato" "upload" tt POTATO_MODEL POTATO_CLASSES
                         eq_refl eq_refl))
           [0; 0; 0; 1]%Q 3).
  - reflexivity.
  - reflexivity.
  - simpl. lia.
Defined.

(** X19. /analyze does not repair the generated text: for an answer with
    the object inside one fenced block, which [clean_llm_json] would decode,
    the explanation of the response is the fallback envelope whenever
    [json.loads] refuses the raw text. *)
Theorem analyze_does_not_repair
        (E : Env) (plant file : string) (img : ndarray E)
        (d : string) (c : Q) (tr1 : list event)
        (pre tag body tail post : string) (doc : json) (e : exn) :
  let raw :=
    pre ++ FENCE ++ (tag ++ (LBRACE ++ body ++ RBRACE) ++ tail) ++ FENCE ++ post in
  has_char is_backtick (pre ++ tag ++ body ++ tail ++ post) = false ->
  has_char is_lbrace (pre ++ tag) = false ->
  has_char is_rbrace (tail ++ post) = false ->
  json_loads (runtime E) (LBRACE ++ body ++ RBRACE) = Ok doc ->
  json_loads (runtime E) raw = Raise e ->
  read_file_as_image E file = Ok img ->
  vision_agent E plant img [EvImageDecode] = (Ok (d, c), tr1) ->
  generate_llm_explanation E plant d = Ok raw ->
  clean_llm_json (runtime E) raw = Ok doc /\
  (forall r tr,
     run (analyze E plant file) = (Ok r, tr) ->
     resp_explanation r = fallback_envelope "LLM produced invalid JSON" raw).
Proof.
  intros raw Hbt Hl Hr Hobj Hraw Himg Hv Hg. split.
  - apply (proj2 (extract_json_fenced pre tag body tail post Hbt Hl Hr)).
    exact Hobj.
  - intros r tr.
    rewrite (analyze_after_vision E plant file img d c tr1 Himg Hv), Hg.
    unfold parse_or_fallback. rewrite Hraw.
    destruct (speech_text E plant d _) as [speech|e']; [|discriminate].
    destruct (gtts_save E speech (audio_path E)); [|discriminate].
    intros H. injection H as <- _. reflexivity.
Qed.

Lemma analyze_does_not_repair_witness :
  clean_llm_json json_ref.runtime "```json {} ```" = Ok (JObj []) /\
  (forall r tr,
     run (analyze (more_examples.backend [1%Q] (Ok "```json {} ```") (Ok tt))
            "potato" "upload") = (Ok r, tr) ->
     resp_explanation r
     = fallback_envelope "LLM produced invalid JSON" "```json {} ```").
Proof.
  apply (analyze_does_not_repair
           (more_examples.backend [1%Q] (Ok "```json {} ```") (Ok tt))
           "potato" "upload" tt "Early Blight" 1%Q
           [EvImageDecode; EvPredict POTATO_MODEL]
           EmptyString "json " EmptyString " " EmptyString
           (JObj []) json_ref.syntax_error); reflexivity.
Defined.

(** X20. The whole pipeline on its intended path: when the upload
    decodes, the vision agent answers, the generated text decodes to an
    object and the speech is synthesized, /analyze answers with the plant
    as given, the label and confidence of the vision agent, the decoded
    object and the audio locator of the request, having spoken the healthy
    sentence or the disease with the treatment of the object. *)
Theorem analyze_succeeds
        (E : Env) (plant file : string) (img : ndarray E)
        (d : string) (c : Q) (tr1 : list event)
        (llm : string) (kvs : list (string * json)) :
  read_file_as_image E file = Ok img ->
  vision_agent E plant img [EvImageDecode] = (Ok (d, c), tr1) ->
  generate_llm_explanation E plant d = Ok llm ->
  json_loads (runtime E) llm = Ok (JObj kvs) ->
  (forall text, gtts_save E text (audio_path E) = Ok tt) ->
  exists speech,
    run (analyze E plant file)
    = (Ok {| resp_plant := plant;
             resp_predicted_disease := d;
             resp_confidence := c;
             resp_explanation := JObj kvs;
             resp_audio_url := "/audio/" ++ last_segment (audio_path E) |},
       (tr1 ++ [EvExplain plant d; EvSpeech speech (audio_path E)])%list) /\
    speech
    = (if lower d =? "healthy"
       then "The " ++ plant ++ " plant, is detected healthy."
       else "For " ++ plant ++ " plant, the detected disease is " ++ d ++ ". "
            ++ "The recommended treatment is: "
            ++ format_value (runtime E) (treatment_of kvs) ++ ".").
Proof.
  intros Himg Hv Hg Hl Ha.
  rewrite (analyze_after_vision E plant file img d c tr1 Himg Hv), Hg.
  unfold parse_or_fallback. rewrite Hl.
  unfold speech_text, dict_get, treatment_of.
  destruct (lower d =? "healthy").
  - rewrite Ha, <- app_assoc. eexists. split; reflexivity.
  - destruct (assoc_get kvs "recommended_treatment");
      rewrite Ha, <- app_assoc; eexists; split; reflexivity.
Qed.

Lemma analyze_succeeds_witness :
  exists speech,
    run (analyze (examples.server examples.TREATMENT_ONLY) "Potato" "upload")
    = (Ok examples.potato_response,
       [EvImageDecode; EvPredict POTATO_MODEL;
        EvExplain "Potato" "Late Blight";
        EvSpeech speech "audio/1b4e28ba-2fa1-41d2-883f-0016d3cca427.mp3"]) /\
    speech
    = "For Potato plant, the detected disease is Late Blight. The recommended treatment is: Remove infected leaves.".
Proof.
  apply (analyze_succeeds (examples.server examples.TREATMENT_ONLY)
           "Potato" "upload" tt "Late Blight" (7 # 10)%Q
           [EvImageDecode; EvPredict POTATO_MODEL] examples.TREATMENT_ONLY
           [("recommended_treatment", JStr "Remove infected leaves")]);
    reflexivity.
Defined.
